(** * NOX-X trading system: signal fusion, data preparation, level detection

    A shallow embedding of the core of [app/signal_logic.py],
    [app/ai_model.py] and [app/indicators.py].

    Conventions of the embedding.
    - A Python [float] is an exact rational [Q]; the source only adds,
      multiplies, divides and compares, so every comparison made by the code
      is made here on the exact value.  NaN and the infinities are outside
      the model.  Two floats are equal ([==], membership in a [set]) when the
      rationals are equal in the sense of [Qeq].
    - A [try] block is a computation in [Result]; [except Exception] is a
      [match] on it.  Calls to the logger have no effect on any value and are
      left out.
    - [datetime.now().isoformat()] is a parameter [now] of the functions that
      stamp a record. *)

From Stdlib Require Import List String ZArith QArith Qabs Qround Lqa Lia Bool Sorted.
Import ListNotations.
Open Scope Q_scope.

(** ** Python values and exceptions *)

Inductive PyExc : Type :=
| KeyError | IndexError | ValueError | ZeroDivisionError
| AttributeError | FileNotFoundError | OSError.

Inductive Result (A : Type) : Type :=
| Ok (a : A)
| Raise (e : PyExc).
Arguments Ok {A} a.
Arguments Raise {A} e.

Definition bind {A B} (m : Result A) (k : A -> Result B) : Result B :=
  match m with
  | Ok a => k a
  | Raise e => Raise e
  end.

Declare Scope result_scope.
Delimit Scope result_scope with result.
Notation "x <- m ;; k" := (bind m (fun x => k))
  (at level 100, m at next level, right associativity) : result_scope.

(** [try: body except Exception: return d]. *)
Definition try_except {A} (body : Result A) (d : A) : A :=
  match body with
  | Ok a => a
  | Raise _ => d
  end.

(** Comparisons of floats, as booleans. *)
Definition Qltb (x y : Q) : bool := negb (Qle_bool y x).
Definition Qgtb (x y : Q) : bool := Qltb y x.

(** The builtins [min(a, b)] and [max(a, b)]: the first argument is kept
    unless the second is strictly smaller (larger). *)
Definition py_min (a b : Q) : Q := if Qltb b a then b else a.
Definition py_max (a b : Q) : Q := if Qgtb b a then b else a.

(** [max(iterable, default=None)] and [min(iterable, default=None)]: the
    first extremal element. *)
Definition py_max_list (l : list Q) : option Q :=
  match l with
  | [] => None
  | x :: t => Some (fold_left py_max t x)
  end.

Definition py_min_list (l : list Q) : option Q :=
  match l with
  | [] => None
  | x :: t => Some (fold_left py_min t x)
  end.

(** Truth value of [None] or a float: [None] and [0.0] are false. *)
Definition truthy (o : option Q) : bool :=
  match o with
  | None => false
  | Some v => negb (Qeq_bool v 0)
  end.

(** [max(min(x, 1.0), 0.0)] *)
Definition clamp01 (x : Q) : Q := py_max (py_min x 1) 0.

(** ** Data frames

    A frame has a list of column labels and a list of rows; a row gives the
    value of each column.  Only the columns of the frame can be read: any
    other label raises [KeyError]. *)

Definition Row := string -> Q.

Record DataFrame : Type := mkDataFrame {
  columns : list string;
  rows : list Row
}.

(** A row of a frame taken out as a [Series] indexed by the column labels. *)
Record Series : Type := mkSeries {
  s_index : list string;
  s_values : Row
}.

Definition mem_str (c : string) (l : list string) : bool :=
  if in_dec string_dec c l then true else false.

(** [c in df.columns] *)
Definition has_column (df : DataFrame) (c : string) : bool :=
  mem_str c (columns df).

(** [len(df)] *)
Definition len (df : DataFrame) : nat := List.length (rows df).

(** Positional access with Python's negative indices. *)
Definition iloc {A} (l : list A) (i : Z) : Result A :=
  let n := Z.of_nat (List.length l) in
  let j := (if i <? 0 then n + i else i)%Z in
  if (j <? 0)%Z then Raise IndexError
  else match nth_error l (Z.to_nat j) with
       | Some a => Ok a
       | None => Raise IndexError
       end.

(** [df.iloc[-1]] *)
Definition df_latest (df : DataFrame) : Result Series :=
  (r <- iloc (rows df) (-1) ;; Ok (mkSeries (columns df) r))%result.

(** [df[c]]: the column as a list of values. *)
Definition col (df : DataFrame) (c : string) : Result (list Q) :=
  if has_column df c then Ok (map (fun r : Row => r c) (rows df))
  else Raise KeyError.

(** [latest[c]] *)
Definition s_item (s : Series) (c : string) : Result Q :=
  if mem_str c (s_index s) then Ok (s_values s c) else Raise KeyError.

(** [latest.get(c, d)] *)
Definition s_get (s : Series) (c : string) (d : Q) : Q :=
  if mem_str c (s_index s) then s_values s c else d.

(** A row written as an association list; labels not listed read 0. *)
Fixpoint row_of (l : list (string * Q)) : Row :=
  fun c =>
    match l with
    | [] => 0
    | (k, v) :: t => if string_dec c k then v else row_of t c
    end.

(** [d[k]] on a dictionary key that may be absent. *)
Definition dict_get {A} (o : option A) : Result A :=
  match o with
  | Some a => Ok a
  | None => Raise KeyError
  end.

(** Float division; Python raises on a zero divisor. *)
Definition py_div (a b : Q) : Result Q :=
  if Qeq_bool b 0 then Raise ZeroDivisionError else Ok (a / b).

(** ** [app/signal_logic.py]: class [SignalGenerator] *)

Inductive AISignal : Type := AI_BUY | AI_SELL | AI_HOLD.

(** The prediction record handed over by the classifier, read as a
    dictionary: a key may be absent. *)
Record Probabilities : Type := mkProbabilities {
  buy : option Q;
  sell : option Q;
  hold : option Q
}.

Record AIPrediction : Type := mkAIPrediction {
  signal : option AISignal;
  confidence : option Q;
  probabilities : option Probabilities;
  timestamp : option string
}.

(** [price_data]: only the key ['close'] is read. *)
Record PriceData : Type := mkPriceData {
  close : option Q
}.

(** [support_resistance]: both keys are read with [.get(key, [])], so an
    absent key and an empty list are the same value. *)
Record SupportResistance : Type := mkSupportResistance {
  support : list Q;
  resistance : list Q
}.

Inductive SignalType : Type :=
| NEUTRAL | BUY | STRONG_BUY | SELL | STRONG_SELL.

Record SignalMetrics : Type := mkSignalMetrics {
  ai_score : Q;
  trend_score : Q;
  momentum_score : Q;
  support_resistance_score : Q
}.

Record TradeLevels : Type := mkTradeLevels {
  lv_entry : Q;
  lv_stop_loss : option Q;
  lv_take_profit : option Q;
  lv_risk_reward_ratio : Q
}.

Record TechnicalSummary : Type := mkTechnicalSummary {
  ts_rsi : Q;
  ts_macd_line : Q;
  ts_macd_signal : Q;
  ts_macd_histogram : Q;
  ts_bb_upper : Q;
  ts_bb_middle : Q;
  ts_bb_lower : Q;
  ts_adx : Q
}.

(** The ['metadata'] entry.  ['market_context'] (an annualised volatility,
    which takes a square root, and three column aggregates) is computed under
    its own [try] after every other field is fixed and is not part of the
    record here. *)
Record Metadata : Type := mkMetadata {
  md_ai_prediction : AIPrediction;
  md_technical_indicators : option TechnicalSummary
}.

Record Signal : Type := mkSignal {
  sg_timestamp : string;
  signal_type : SignalType;
  sg_confidence : Q;
  entry_price : option Q;
  stop_loss : option Q;
  take_profit : option Q;
  risk_reward_ratio : option Q;
  metrics : SignalMetrics;
  metadata : option Metadata
}.

(** Set in [__init__]. *)
Definition min_confidence : Q := 0.7.
Definition the_risk_reward_ratio : Q := 2.

Definition is_empty {A} (l : list A) : bool :=
  match l with
  | [] => true
  | _ => false
  end.

Definition _evaluate_ai_signal (ai_prediction : AIPrediction) : Q :=
  try_except
    (signal_strength <- dict_get (confidence ai_prediction) ;;
     probs <- dict_get (probabilities ai_prediction) ;;
     b <- dict_get (buy probs) ;;
     decisive <- (if Qgtb b 0.7 then Ok true
                  else (s <- dict_get (sell probs) ;; Ok (Qgtb s 0.7))) ;;
     let signal_strength :=
       if decisive : bool then signal_strength * 1.2 else signal_strength in
     Ok (py_min signal_strength 1))%result
    0.

Definition _evaluate_trend (df : DataFrame) : Q :=
  try_except
    (latest <- df_latest df ;;
     let trend_score := 0 in
     trend_score <-
       (if has_column df "sma_20" && has_column df "sma_50" then
          sma_20 <- s_item latest "sma_20" ;;
          sma_50 <- s_item latest "sma_50" ;;
          Ok (if Qgtb sma_20 sma_50 then trend_score + 0.3
              else if Qltb sma_20 sma_50 then trend_score - 0.3
              else trend_score)
        else Ok trend_score) ;;
     trend_score <-
       (if has_column df "adx" then
          adx_value <- s_item latest "adx" ;;
          Ok (if Qgtb adx_value 25 then trend_score * 1.5
              else if Qltb adx_value 20 then trend_score * 0.5
              else trend_score)
        else Ok trend_score) ;;
     Ok (clamp01 (Qabs trend_score)))%result
    0.

Definition _evaluate_momentum (df : DataFrame) : Q :=
  try_except
    (latest <- df_latest df ;;
     let momentum_score := 0 in
     momentum_score <-
       (if has_column df "rsi" then
          rsi <- s_item latest "rsi" ;;
          Ok (if Qgtb rsi 70 then momentum_score - 0.3
              else if Qltb rsi 30 then momentum_score + 0.3
              else momentum_score)
        else Ok momentum_score) ;;
     momentum_score <-
       (if forallb (has_column df) ["macd_line"; "macd_signal"]%string then
          macd_line <- s_item latest "macd_line" ;;
          macd_signal <- s_item latest "macd_signal" ;;
          Ok (if Qgtb macd_line macd_signal then momentum_score + 0.3
              else momentum_score - 0.3)
        else Ok momentum_score) ;;
     momentum_score <-
       (if has_column df "stoch_k" && has_column df "stoch_d" then
          stoch_k <- s_item latest "stoch_k" ;;
          stoch_d <- s_item latest "stoch_d" ;;
          Ok (if Qgtb stoch_k stoch_d then momentum_score + 0.2
              else momentum_score - 0.2)
        else Ok momentum_score) ;;
     Ok (clamp01 (Qabs momentum_score)))%result
    0.

(** [max([s for s in support if s < current_price], default=None)] *)
Definition nearest_below (levels : list Q) (current_price : Q) : option Q :=
  py_max_list (filter (fun s => Qltb s current_price) levels).

(** [min([r for r in resistance if r > current_price], default=None)] *)
Definition nearest_above (levels : list Q) (current_price : Q) : option Q :=
  py_min_list (filter (fun r => Qgtb r current_price) levels).

Definition _evaluate_support_resistance
    (current_price : Q) (support_resistance : SupportResistance) : Q :=
  try_except
    (let score := 0 in
     let support_levels := support support_resistance in
     let resistance_levels := resistance support_resistance in
     if is_empty support_levels && is_empty resistance_levels then Ok 0
     else
       let nearest_support := nearest_below support_levels current_price in
       let nearest_resistance := nearest_above resistance_levels current_price in
       score <-
         (match nearest_support with
          | Some s =>
              if truthy nearest_support then
                support_proximity <- py_div (current_price - s) current_price ;;
                Ok (if Qltb support_proximity 0.01 then score + 0.5
                    else if Qltb support_proximity 0.02 then score + 0.3
                    else score)
              else Ok score
          | None => Ok score
          end) ;;
       score <-
         (match nearest_resistance with
          | Some r =>
              if truthy nearest_resistance then
                resistance_proximity <- py_div (r - current_price) current_price ;;
                Ok (if Qltb resistance_proximity 0.01 then score - 0.5
                    else if Qltb resistance_proximity 0.02 then score - 0.3
                    else score)
              else Ok score
          | None => Ok score
          end) ;;
       Ok (clamp01 (Qabs score)))%result
    0.

(** The [weights] dictionary of [_calculate_overall_score]. *)
Definition weights : SignalMetrics := mkSignalMetrics 0.4 0.25 0.2 0.15.

(** [sum(score * weights[metric] for metric, score in metrics.items())]: the
    four entries in insertion order, added to the start value 0. *)
Definition weighted_sum (m : SignalMetrics) : Q :=
  fold_left Qplus
    [ai_score m * ai_score weights;
     trend_score m * trend_score weights;
     momentum_score m * momentum_score weights;
     support_resistance_score m * support_resistance_score weights]
    0.

Definition _calculate_overall_score (m : SignalMetrics) : Q :=
  try_except (Ok (clamp01 (weighted_sum m))) 0.

Definition _determine_signal_type (overall_score : Q) : SignalType :=
  try_except
    (if Qltb overall_score min_confidence then Ok NEUTRAL
     else if Qgtb overall_score 0.8 then
       Ok (if Qgtb overall_score 0 then STRONG_BUY else STRONG_SELL)
     else
       Ok (if Qgtb overall_score 0 then BUY else SELL))
    NEUTRAL.

Definition is_long (t : SignalType) : bool :=
  match t with
  | BUY | STRONG_BUY => true
  | _ => false
  end.

Definition is_short (t : SignalType) : bool :=
  match t with
  | SELL | STRONG_SELL => true
  | _ => false
  end.

(** [a if a else b] on an optional float. *)
Definition or_else (a : option Q) (b : Q) : Q :=
  match a with
  | Some v => if truthy a then v else b
  | None => b
  end.

(** The ATR read by [_calculate_trade_levels]: the column's latest value, or
    0.1% of the price when the frame has no ['atr'] column. *)
Definition atr_of (latest : Series) (current_price : Q) : Q :=
  s_get latest "atr" (current_price * 0.001).

Definition _calculate_trade_levels
    (t : SignalType) (current_price : Q) (technical_data : DataFrame)
    (support_resistance : SupportResistance) : TradeLevels :=
  try_except
    (latest <- df_latest technical_data ;;
     let atr := atr_of latest current_price in
     let entry := current_price in
     let '(stop_loss, take_profit) :=
       if is_long t then
         let nearby_support :=
           nearest_below (support support_resistance) current_price in
         let stop_loss := or_else nearby_support (current_price - 2 * atr) in
         let take_profit :=
           current_price + (current_price - stop_loss) * the_risk_reward_ratio in
         (Some stop_loss, Some take_profit)
       else if is_short t then
         let nearby_resistance :=
           nearest_above (resistance support_resistance) current_price in
         let stop_loss := or_else nearby_resistance (current_price + 2 * atr) in
         let take_profit :=
           current_price - (stop_loss - current_price) * the_risk_reward_ratio in
         (Some stop_loss, Some take_profit)
       else (None, None) in
     let risk :=
       match stop_loss with
       | Some sl => if truthy stop_loss then Qabs (entry - sl) else atr
       | None => atr
       end in
     let reward :=
       match take_profit with
       | Some tp =>
           if truthy take_profit then Qabs (entry - tp)
           else risk * the_risk_reward_ratio
       | None => risk * the_risk_reward_ratio
       end in
     Ok (mkTradeLevels entry stop_loss take_profit
           (if Qgtb risk 0 then reward / risk else the_risk_reward_ratio)))%result
    (mkTradeLevels current_price None None the_risk_reward_ratio).

Definition _get_technical_summary (df : DataFrame) : option TechnicalSummary :=
  try_except
    (latest <- df_latest df ;;
     Ok (Some (mkTechnicalSummary
                 (s_get latest "rsi" 0)
                 (s_get latest "macd_line" 0)
                 (s_get latest "macd_signal" 0)
                 (s_get latest "macd_histogram" 0)
                 (s_get latest "bb_upper" 0)
                 (s_get latest "bb_middle" 0)
                 (s_get latest "bb_lower" 0)
                 (s_get latest "adx" 0))))%result
    None.

Definition _create_neutral_signal (now : string) : Signal :=
  mkSignal now NEUTRAL 0 None None None None (mkSignalMetrics 0 0 0 0) None.

(** The four sub-scores collected by [generate_signal]. *)
Definition signal_metrics_of
    (ai_prediction : AIPrediction) (technical_data : DataFrame)
    (current_price : Q) (support_resistance : SupportResistance)
    : SignalMetrics :=
  mkSignalMetrics
    (_evaluate_ai_signal ai_prediction)
    (_evaluate_trend technical_data)
    (_evaluate_momentum technical_data)
    (_evaluate_support_resistance current_price support_resistance).

Definition generate_signal
    (now : string) (ai_prediction : AIPrediction) (technical_data : DataFrame)
    (price_data : PriceData) (support_resistance : SupportResistance)
    : Signal :=
  try_except
    (current_price <- dict_get (close price_data) ;;
     let signal_metrics :=
       signal_metrics_of ai_prediction technical_data current_price
         support_resistance in
     let overall_score := _calculate_overall_score signal_metrics in
     let t := _determine_signal_type overall_score in
     match t with
     | NEUTRAL => Ok (_create_neutral_signal now)
     | _ =>
         let levels :=
           _calculate_trade_levels t current_price technical_data
             support_resistance in
         Ok (mkSignal now t overall_score
               (Some (lv_entry levels))
               (lv_stop_loss levels)
               (lv_take_profit levels)
               (Some (lv_risk_reward_ratio levels))
               signal_metrics
               (Some (mkMetadata ai_prediction
                        (_get_technical_summary technical_data))))
     end)%result
    (_create_neutral_signal now).

(** ** [sklearn.preprocessing.MinMaxScaler]

    The scaler of [AIModel] as the library documents it, with the default
    [feature_range=(0, 1)]: [fit] forgets the previous fit, rejects a matrix
    with no row or no column with [ValueError] (its input validation asks for
    at least one sample and one feature), and otherwise stores per column
    [scale_ = 1 / (max - min)] (1 for a constant column) and
    [min_ = 0 - min * scale_]; [transform] maps [x] to [x * scale_ + min_].
    Only the fitted attributes [scale_] and [min_] are kept. *)

Record MinMaxScaler : Type := mkMinMaxScaler {
  scale_ : option (list Q);
  min_ : option (list Q)
}.

Definition unfitted : MinMaxScaler := mkMinMaxScaler None None.

Definition map2 {A B C} (f : A -> B -> C) (l : list A) (l' : list B) : list C :=
  map (fun ab => f (fst ab) (snd ab)) (combine l l').

(** Column-wise minimum and maximum of a matrix with a first row. *)
Definition col_min (r : list Q) (rest : list (list Q)) : list Q :=
  fold_left (map2 py_min) rest r.
Definition col_max (r : list Q) (rest : list (list Q)) : list Q :=
  fold_left (map2 py_max) rest r.

Definition handle_zeros_in_scale (range : Q) : Q :=
  if Qeq_bool range 0 then 1 else range.

Definition scaler_transform (scale mn : list Q) (X : list (list Q))
    : list (list Q) :=
  map (fun row => map2 Qplus (map2 Qmult row scale) mn) X.

(** [scaler.fit_transform(X)]: the result and the scaler left behind. *)
Definition fit_transform (X : list (list Q))
    : Result (list (list Q)) * MinMaxScaler :=
  match X with
  | [] => (Raise ValueError, unfitted)
  | r :: rest =>
      if is_empty r then (Raise ValueError, unfitted)
      else
        let data_min := col_min r rest in
        let data_max := col_max r rest in
        let data_range := map2 Qminus data_max data_min in
        let scale := map (fun d => 1 / handle_zeros_in_scale d) data_range in
        let mn := map2 (fun m s => 0 - m * s) data_min scale in
        (Ok (scaler_transform scale mn X), mkMinMaxScaler (Some scale) (Some mn))
  end.

(** ** [app/ai_model.py]: class [AIModel] *)

(** A file under [app/models/]: readable with some content, or damaged. *)
Inductive File (A : Type) : Type :=
| Readable (a : A)
| Damaged.
Arguments Readable {A} a.
Arguments Damaged {A}.

Section AIModelClass.

(** The Keras network is opaque: a type of models and the result of
    [model.predict(batch, verbose=0)], one output row per input window, or an
    exception. *)
Variable Model : Type.
Variable keras_predict :
  Model -> list (list (list Q)) -> Result (list (list Q)).

(** The object's attributes. *)
Record AIModel : Type := mkAIModel {
  model : Model;
  scaler : MinMaxScaler;
  feature_columns : list string;
  sequence_length : nat;
  model_version : Z
}.

(** The two families of files, [lstm_model_v{version}.h5] and
    [scaler_v{version}.npy], keyed by the version that names them. *)
Record FileSystem : Type := mkFileSystem {
  model_file : Z -> option (File Model);
  scaler_file : Z -> option (File (list Q))
}.

(** What a method can read and change: the object and the files. *)
Record World : Type := mkWorld {
  self : AIModel;
  fs : FileSystem
}.

(** A method: from a world to a result or a raised exception, and the world
    it leaves; assignments made before a [raise] stay made. *)
Definition M (A : Type) : Type := World -> Result A * World.

Definition ret {A} (a : A) : M A := fun w => (Ok a, w).
Definition raise {A} (e : PyExc) : M A := fun w => (Raise e, w).
Definition mbind {A B} (m : M A) (k : A -> M B) : M B :=
  fun w =>
    match m w with
    | (Ok a, w') => k a w'
    | (Raise e, w') => (Raise e, w')
    end.
Definition lift {A} (r : Result A) : M A := fun w => (r, w).
Definition get_self : M AIModel := fun w => (Ok (self w), w).
Definition get_fs : M FileSystem := fun w => (Ok (fs w), w).
Definition put_self (s : AIModel) : M unit :=
  fun w => (Ok tt, mkWorld s (fs w)).
Definition put_fs (f : FileSystem) : M unit :=
  fun w => (Ok tt, mkWorld (self w) f).

(** [try: body except Exception: return d] inside a method. *)
Definition m_try_except {A} (body : M A) (handler : M A) : M A :=
  fun w =>
    match body w with
    | (Ok a, w') => (Ok a, w')
    | (Raise _, w') => handler w'
    end.

End AIModelClass.

Arguments mkAIModel {Model}.
Arguments model {Model}.
Arguments scaler {Model}.
Arguments feature_columns {Model}.
Arguments sequence_length {Model}.
Arguments model_version {Model}.
Arguments mkFileSystem {Model}.
Arguments model_file {Model}.
Arguments scaler_file {Model}.
Arguments mkWorld {Model}.
Arguments self {Model}.
Arguments fs {Model}.
Arguments ret {Model A}.
Arguments raise {Model A}.
Arguments mbind {Model A B}.
Arguments lift {Model A}.
Arguments get_self {Model}.
Arguments get_fs {Model}.
Arguments put_self {Model}.
Arguments put_fs {Model}.
Arguments m_try_except {Model A}.

Declare Scope method_scope.
Delimit Scope method_scope with method.
Notation "x <- m ;; k" := (mbind m (fun x => k))
  (at level 100, m at next level, right associativity) : method_scope.
Notation "m ;;; k" := (mbind m (fun _ => k))
  (at level 100, right associativity) : method_scope.

(** [for x in l: ...] with a body that may raise: the results up to the
    first exception, which ends the loop. *)
Fixpoint mapM {A B} (f : A -> Result B) (l : list A) : Result (list B) :=
  match l with
  | [] => Ok []
  | a :: t => (b <- f a ;; bs <- mapM f t ;; Ok (b :: bs))%result
  end.

(** [l[i:j]] for [0 <= i <= j]. *)
Definition slice {A} (l : list A) (i j : nat) : list A :=
  firstn (j - i) (skipn i l).

(** The one-hot target, in the order buy, sell, hold. *)
Definition target_of (next_close current_close : Q) : list Z :=
  if Qgtb next_close (current_close * 1.001) then [1; 0; 0]%Z
  else if Qltb next_close (current_close * 0.999) then [0; 1; 0]%Z
  else [0; 0; 1]%Z.

(** One turn of the loop of [prepare_data]: the window appended to [X] and
    the target appended to [y]. *)
Definition window_example
    (df : DataFrame) (scaled_features : list (list Q)) (L : nat) (i : nat)
    : Result (list (list Q) * list Z) :=
  (closes <- col df "close" ;;
   next_close <- iloc closes (Z.of_nat i + Z.of_nat L) ;;
   current_close <- iloc closes (Z.of_nat i + Z.of_nat L - 1) ;;
   Ok (slice scaled_features i (i + L), target_of next_close current_close))%result.

(** [np.argmax]: the first position of the largest entry. *)
Fixpoint argmax_from (best : Q) (best_i i : nat) (l : list Q) : nat :=
  match l with
  | [] => best_i
  | x :: t =>
      if Qgtb x best then argmax_from x i (S i) t
      else argmax_from best best_i (S i) t
  end.

Definition argmax (l : list Q) : Result nat :=
  match l with
  | [] => Raise ValueError
  | x :: t => Ok (argmax_from x 0%nat 1%nat t)
  end.

(** [X[-1:]] *)
Definition last_only {A} (l : list A) : list A :=
  skipn (List.length l - 1) l.

Section AIModelMethods.

Variable Model : Type.
Variable keras_predict :
  Model -> list (list (list Q)) -> Result (list (list Q)).
Variable now : string.

Definition set_scaler (s : AIModel Model) (sc : MinMaxScaler) : AIModel Model :=
  mkAIModel (model s) sc (feature_columns s) (sequence_length s)
    (model_version s).

Definition set_model (s : AIModel Model) (m : Model) : AIModel Model :=
  mkAIModel m (scaler s) (feature_columns s) (sequence_length s)
    (model_version s).

Definition set_model_version (s : AIModel Model) (v : Z) : AIModel Model :=
  mkAIModel (model s) (scaler s) (feature_columns s) (sequence_length s) v.

Definition prepare_data (df : DataFrame)
    : M Model (list (list (list Q)) * list (list Z)) :=
  (s <- get_self ;;
   let missing_features :=
     filter (fun c => negb (has_column df c)) (feature_columns s) in
   if negb (is_empty missing_features) then raise ValueError
   else
     let features :=
       map (fun r : Row => map r (feature_columns s)) (rows df) in
     let fitted := fit_transform features in
     put_self (set_scaler s (snd fitted)) ;;;
     scaled_features <- lift (fst fitted) ;;
     examples <-
       lift (mapM (window_example df scaled_features (sequence_length s))
               (seq 0 (List.length scaled_features - sequence_length s))) ;;
     ret (map fst examples, map snd examples))%method.

(** The fallback record of [predict]. *)
Definition safe_neutral : AIPrediction :=
  mkAIPrediction (Some AI_HOLD) (Some 0)
    (Some (mkProbabilities (Some 0) (Some 0) (Some 1))) (Some now).

(** The [try] block of [predict]. *)
Definition predict_body (df : DataFrame) : M Model AIPrediction :=
  (Xy <- prepare_data df ;;
   let X := fst Xy in
   if Nat.eqb (List.length X) 0 then raise ValueError
   else
     let last_sequence := last_only X in
     s <- get_self ;;
     outputs <- lift (keras_predict (model s) last_sequence) ;;
     prediction <- lift (iloc outputs 0) ;;
     signal_strength <-
       lift (match py_max_list prediction with
             | Some v => Ok v
             | None => Raise ValueError
             end) ;;
     signal_index <- lift (argmax prediction) ;;
     sig <- lift (iloc [AI_BUY; AI_SELL; AI_HOLD] (Z.of_nat signal_index)) ;;
     p_buy <- lift (iloc prediction 0) ;;
     p_sell <- lift (iloc prediction 1) ;;
     p_hold <- lift (iloc prediction 2) ;;
     ret (mkAIPrediction (Some sig) (Some signal_strength)
            (Some (mkProbabilities (Some p_buy) (Some p_sell) (Some p_hold)))
            (Some now)))%method.

Definition predict (df : DataFrame) : M Model AIPrediction :=
  m_try_except (predict_body df) (ret safe_neutral).

Definition set_model_file (f : FileSystem Model) (v : Z) (m : Model)
    : FileSystem Model :=
  mkFileSystem
    (fun v' => if Z.eqb v' v then Some (Readable m) else model_file f v')
    (scaler_file f).

Definition set_scaler_file (f : FileSystem Model) (v : Z) (a : list Q)
    : FileSystem Model :=
  mkFileSystem (model_file f)
    (fun v' => if Z.eqb v' v then Some (Readable a) else scaler_file f v').

(** [load_model(path)] and [np.load(path)]. *)
Definition read_file {A} (o : option (File A)) : Result A :=
  match o with
  | Some (Readable a) => Ok a
  | Some Damaged => Raise OSError
  | None => Raise FileNotFoundError
  end.

Definition save_model : M Model unit :=
  (s <- get_self ;;
   let version := (model_version s + 1)%Z in
   let s := set_model_version s version in
   put_self s ;;;
   f <- get_fs ;;
   put_fs (set_model_file f version (model s)) ;;;
   scale <- lift (match scale_ (scaler s) with
                  | Some a => Ok a
                  | None => Raise AttributeError
                  end) ;;
   f <- get_fs ;;
   put_fs (set_scaler_file f version scale))%method.

Definition load_specific_version (version : Z) : M Model unit :=
  (f <- get_fs ;;
   match model_file f version with
   | None => raise FileNotFoundError
   | Some _ =>
       loaded <- lift (read_file (model_file f version)) ;;
       s <- get_self ;;
       put_self (set_model s loaded) ;;;
       scale <- lift (read_file (scaler_file f version)) ;;
       s <- get_self ;;
       put_self (set_scaler s (mkMinMaxScaler (Some scale) (min_ (scaler s)))) ;;;
       s <- get_self ;;
       put_self (set_model_version s version)
   end)%method.

End AIModelMethods.

Arguments prepare_data {Model}.
Arguments predict_body {Model}.
Arguments predict {Model}.
Arguments save_model {Model}.
Arguments load_specific_version {Model}.

(** A label is one-hot when its entries are 0 or 1 and add up to 1. *)
Definition is_one_hot (l : list Z) : bool :=
  forallb (fun x => Z.eqb x 0 || Z.eqb x 1) l && Z.eqb (fold_left Z.add l 0%Z) 1.

(** [df[feature_columns].values] *)
Definition feature_matrix (df : DataFrame) (cols : list string)
    : list (list Q) :=
  map (fun r : Row => map r cols) (rows df).

(** ** [app/indicators.py]: [TechnicalIndicators.detect_support_resistance] *)

(** The window that [series.rolling(window=w, center=True)] gives position
    [i]: positions [i + 1 + (w-1)//2 - w] up to [i + (w-1)//2].  A window
    that runs over either end of the series holds fewer than [w]
    observations and yields NaN, as does [w = 0]; [None] stands for NaN. *)
Definition rolling_window (l : list Q) (w i : nat) : option (list Q) :=
  if Nat.eqb w 0 then None
  else
    let offset := ((w - 1) / 2)%nat in
    let stop := (i + 1 + offset)%nat in
    if Nat.ltb stop w || Nat.ltb (List.length l) stop then None
    else Some (slice l (stop - w) stop).

(** [.rolling(...).max().iloc[i]] and [.rolling(...).min().iloc[i]] *)
Definition rolling_max (l : list Q) (w i : nat) : option Q :=
  match rolling_window l w i with
  | Some win => py_max_list win
  | None => None
  end.

Definition rolling_min (l : list Q) (w i : nat) : option Q :=
  match rolling_window l w i with
  | Some win => py_min_list win
  | None => None
  end.

(** The inner loop: the number of [j] in
    [range(max(0, i - window), min(len(df), i + window))] whose value lies
    within 0.2% of the level. *)
Definition count_touches (vals : list Q) (level : Q) (w i : nat) : nat :=
  List.length
    (filter (fun v => Qle_bool (Qabs (v - level)) (level * 0.002))
       (slice vals (i - w) (Nat.min (List.length vals) (i + w)))).

(** One of the two tests made at position [i] (on the highs against their
    rolling maximum, on the lows against their rolling minimum): the levels
    it appends.  A NaN never equals a value. *)
Definition level_at
    (vals : list Q) (rolled : nat -> option Q) (w : nat) (num_touches : Z)
    (i : nat) : Result (list Q) :=
  (v <- iloc vals (Z.of_nat i) ;;
   match rolled i with
   | Some level =>
       if Qeq_bool level v then
         let touches := count_touches vals level w i in
         if (num_touches <=? Z.of_nat touches)%Z then Ok [level] else Ok []
       else Ok []
   | None => Ok []
   end)%result.

(** The list [levels] when the outer loop ends. *)
Definition found_levels (df : DataFrame) (w : nat) (num_touches : Z)
    : Result (list Q) :=
  (high <- col df "high" ;;
   low <- col df "low" ;;
   per_position <-
     mapM (fun i =>
             from_high <- level_at high (rolling_max high w) w num_touches i ;;
             from_low <- level_at low (rolling_min low w) w num_touches i ;;
             Ok (from_high ++ from_low))
       (seq w (len df - w - w)) ;;
   Ok (List.concat per_position))%result.

(** [set(levels)]: one representative of every value, the first met. *)
Fixpoint py_set (l : list Q) : list Q :=
  match l with
  | [] => []
  | x :: t => x :: filter (fun y => negb (Qeq_bool x y)) (py_set t)
  end.

(** [sorted(...)], ascending.  On values that are pairwise different every
    sorting algorithm returns the same list; insertion sort is used here. *)
Fixpoint insert_sorted (x : Q) (l : list Q) : list Q :=
  match l with
  | [] => [x]
  | y :: t => if Qle_bool x y then x :: l else y :: insert_sorted x t
  end.

Definition py_sorted (l : list Q) : list Q := fold_right insert_sorted [] l.

(** [df['close'].iloc[-1]] *)
Definition latest_close (df : DataFrame) : Result Q :=
  (closes <- col df "close" ;; iloc closes (-1))%result.

Definition detect_support_resistance
    (df : DataFrame) (window : nat) (num_touches : Z) : SupportResistance :=
  try_except
    (levels <- found_levels df window num_touches ;;
     let levels := py_sorted (py_set levels) in
     current_price <- latest_close df ;;
     let support_levels := filter (fun level => Qltb level current_price) levels in
     let resistance_levels :=
       filter (fun level => Qgtb level current_price) levels in
     Ok (mkSupportResistance support_levels resistance_levels))%result
    (mkSupportResistance [] []).

(** Values that are pairwise different. *)
Definition distinct (l : list Q) : Prop :=
  StronglySorted (fun a b : Q => ~ a == b) l.

(** ** [app/main.py]: the confidence test of [trade_execution_worker]

    A signal taken from the queue is skipped when
    [signal['confidence'] < 0.8]. *)
Definition passes_confidence_gate (s : Signal) : bool :=
  negb (Qltb (sg_confidence s) 0.8).

(** ** [app/mt5_connector.py]: [get_symbol_info]

    A dictionary with string keys holding strings and numbers, in insertion
    order. *)
Inductive PyValue : Type :=
| VStr (s : string)
| VNum (q : Q).

Definition Dict := list (string * PyValue).

Fixpoint dict_lookup (k : string) (d : Dict) : option PyValue :=
  match d with
  | [] => None
  | (k', v) :: t => if string_dec k k' then Some v else dict_lookup k t
  end.

(** What [mt5.symbol_info(symbol)] returns when the terminal knows the
    symbol. *)
Record MT5SymbolInfo : Type := mkMT5SymbolInfo {
  mt5_name : string;
  mt5_bid : Q;
  mt5_ask : Q;
  mt5_spread : Z;
  mt5_digits : Z;
  mt5_volume_min : Q;
  mt5_volume_max : Q;
  mt5_volume_step : Q;
  mt5_point : Q
}.

(** [get_symbol_info]: the terminal's answer ([None] for an unknown symbol
    or a failed call) turned into a dictionary, [{}] on failure. *)
Definition get_symbol_info (terminal : string -> option MT5SymbolInfo)
    (symbol : string) : Dict :=
  match terminal symbol with
  | Some info =>
      [("symbol", VStr (mt5_name info));
       ("bid", VNum (mt5_bid info));
       ("ask", VNum (mt5_ask info));
       ("spread", VNum (inject_Z (mt5_spread info)));
       ("digits", VNum (inject_Z (mt5_digits info)));
       ("min_lot", VNum (mt5_volume_min info));
       ("max_lot", VNum (mt5_volume_max info));
       ("lot_step", VNum (mt5_volume_step info));
       ("point", VNum (mt5_point info))]%string
  | None => []
  end.

(** A dictionary passed as [price_data]: the record of the one key that
    [generate_signal] reads.  It stands for dictionaries whose ['close'],
    when present, is a number. *)
Definition price_data_of (d : Dict) : PriceData :=
  mkPriceData
    (match dict_lookup "close" d with
     | Some (VNum q) => Some q
     | _ => None
     end).

(** ** [app/main.py]: [TradingSystem.calculate_position_size] *)

(** The builtin [round] on a float: to the nearest integer, a tie going to
    the even one. *)
Definition py_round (x : Q) : Z :=
  let f := Qfloor x in
  let r := x - inject_Z f in
  if Qltb r (1 # 2) then f
  else if Qgtb r (1 # 2) then (f + 1)%Z
  else if Z.even f then f else (f + 1)%Z.

(** A numeric entry of a dictionary; [None] when the key is missing or the
    entry is not a number, either of which ends the [try] block. *)
Definition dict_num (k : string) (d : Dict) : option Q :=
  match dict_lookup k d with
  | Some (VNum q) => Some q
  | _ => None
  end.

Definition option_bind {A B} (o : option A) (k : A -> option B) : option B :=
  match o with
  | Some a => k a
  | None => None
  end.

Declare Scope option_scope.
Delimit Scope option_scope with option.
Notation "x <- m ;; k" := (option_bind m (fun x => k))
  (at level 100, m at next level, right associativity) : option_scope.

Definition safe_div (a b : Q) : option Q :=
  if Qeq_bool b 0 then None else Some (a / b).

(** The signal dictionary is the record of [generate_signal] together with
    the key ['symbol'], which that record does not have: [symbol] is [None]
    when the key is absent.  The [try] block is a computation in [option]:
    [None] is any exception, which the handler turns into 0.0. *)
Definition calculate_position_size
    (symbol_info : string -> Dict) (risk_amount : Q)
    (symbol : option string) (s : Signal) : Q :=
  match
    (if negb (truthy (stop_loss s)) then Some 0
     else
       price <- entry_price s ;;
       stop <- stop_loss s ;;
       sym <- symbol ;;
       pip_value <- dict_num "point" (symbol_info sym) ;;
       sl_pips <- safe_div (Qabs (price - stop)) pip_value ;;
       if Qeq_bool sl_pips 0 then Some 0
       else
         position_size <- safe_div risk_amount sl_pips ;;
         let info := symbol_info sym in
         min_lot <- dict_num "min_lot" info ;;
         lot_step <- dict_num "lot_step" info ;;
         steps <- safe_div position_size lot_step ;;
         let position_size := inject_Z (py_round steps) * lot_step in
         max_lot <- dict_num "max_lot" info ;;
         Some (py_max min_lot (py_min position_size max_lot)))%option
  with
  | Some v => v
  | None => 0
  end.

(** ** [app/ai_model.py]: training *)

(** [config['ai']['training']] *)
Record TrainingConfig : Type := mkTrainingConfig {
  validation_split : Q;
  batch_size : Z;
  epochs : Z;
  learning_rate : Q
}.

(** [history.history]: the validation entries exist only when validation
    data was given. *)
Record History : Type := mkHistory {
  h_loss : list Q;
  h_accuracy : list Q;
  h_val_loss : option (list Q);
  h_val_accuracy : option (list Q)
}.

Record TrainMetrics : Type := mkTrainMetrics {
  train_loss : Q;
  train_accuracy : Q;
  val_loss : Q;
  val_accuracy : Q
}.

(** [int(x)] on a float: towards zero. *)
Definition py_int (x : Q) : Z :=
  if Qltb x 0 then Qceiling x else Qfloor x.

(** The position a slice bound [z] stands for in a list of length [n]. *)
Definition slice_bound (n : nat) (z : Z) : nat :=
  if (z <? 0)%Z then Z.to_nat (Z.max 0 (Z.of_nat n + z))
  else Nat.min n (Z.to_nat z).

(** [l[:z]] and [l[z:]] *)
Definition py_take {A} (l : list A) (z : Z) : list A :=
  firstn (slice_bound (List.length l) z) l.
Definition py_drop {A} (l : list A) (z : Z) : list A :=
  skipn (slice_bound (List.length l) z) l.

Section AIModelTraining.

Variable Model : Type.

(** [model.fit(X, y, batch_size=, epochs=, validation_data=)] changes the
    network in place: the network after the call, and the history or the
    exception the call ends with. *)
Variable keras_fit :
  Model -> list (list (list Q)) -> list (list Z) -> Z -> Z ->
  option (list (list (list Q)) * list (list Z)) -> Model * Result History.

Variable training : TrainingConfig.

Definition train (df : DataFrame) (save : bool) : M Model TrainMetrics :=
  (Xy <- prepare_data df ;;
   let X := fst Xy in
   let y := snd Xy in
   if Nat.eqb (List.length X) 0 then raise ValueError
   else
     let split_idx :=
       py_int (inject_Z (Z.of_nat (List.length X)) *
               (1 - validation_split training)) in
     let X_train := py_take X split_idx in
     let X_val := py_drop X split_idx in
     let y_train := py_take y split_idx in
     let y_val := py_drop y split_idx in
     s <- get_self ;;
     let fitted :=
       keras_fit (model s) X_train y_train (batch_size training)
         (epochs training) (Some (X_val, y_val)) in
     put_self (set_model Model s (fst fitted)) ;;;
     history <- lift (snd fitted) ;;
     (if save then save_model else ret tt) ;;;
     l <- lift (iloc (h_loss history) (-1)) ;;
     a <- lift (iloc (h_accuracy history) (-1)) ;;
     vl <- lift (vls <- dict_get (h_val_loss history) ;; iloc vls (-1))%result ;;
     va <- lift (vas <- dict_get (h_val_accuracy history) ;; iloc vas (-1))%result ;;
     ret (mkTrainMetrics l a vl va))%method.

(** The [try] block of [online_update]. *)
Definition online_update_body (new_data : DataFrame)
    : M Model (option Q * option Q) :=
  (Xy <- prepare_data new_data ;;
   let X := fst Xy in
   let y := snd Xy in
   if Nat.eqb (List.length X) 0 then raise ValueError
   else
     s <- get_self ;;
     let fitted :=
       keras_fit (model s) X y
         (Z.min (Z.of_nat (List.length X)) (batch_size training)) 1 None in
     put_self (set_model Model s (fst fitted)) ;;;
     history <- lift (snd fitted) ;;
     l <- lift (iloc (h_loss history) (-1)) ;;
     a <- lift (iloc (h_accuracy history) (-1)) ;;
     ret (Some l, Some a))%method.

(** [{'loss': ..., 'accuracy': ...}], with [None] for both on failure. *)
Definition online_update (new_data : DataFrame)
    : M Model (option Q * option Q) :=
  m_try_except (online_update_body new_data) (ret (None, None)).

End AIModelTraining.

Arguments train {Model}.
Arguments online_update_body {Model}.
Arguments online_update {Model}.

(** ** [app/indicators.py]: [TechnicalIndicators.detect_patterns] *)

Inductive PatternKind : Type :=
| doji | bullish_engulfing | bearish_engulfing.

Record Pattern : Type := mkPattern {
  pattern : PatternKind;
  pattern_timestamp : string;
  pattern_confidence : Q
}.

(** [row[c]] on a row taken from the frame. *)
Definition row_item (df : DataFrame) (r : Row) (c : string) : Result Q :=
  s_item (mkSeries (columns df) r) c.

(** The list under the key ['patterns'].  [name_of] gives the index label
    of the row at a position ([last_candle.name]). *)
Definition detect_patterns (name_of : nat -> string) (df : DataFrame)
    : list Pattern :=
  try_except
    (if Nat.ltb (len df) 3 then Ok []
     else
       last_candle <- iloc (rows df) (-1) ;;
       let name := name_of (len df - 1)%nat in
       o <- row_item df last_candle "open" ;;
       c <- row_item df last_candle "close" ;;
       let body_size := Qabs (o - c) in
       h <- row_item df last_candle "high" ;;
       l <- row_item df last_candle "low" ;;
       let wick_size := h - l in
       let patterns :=
         if Qle_bool body_size (wick_size * 0.1)
         then [mkPattern doji name 0.8] else [] in
       if Nat.leb 2 (len df) then
         current <- iloc (rows df) (-1) ;;
         previous <- iloc (rows df) (-2) ;;
         pc <- row_item df previous "close" ;;
         po <- row_item df previous "open" ;;
         bullish <-
           (if Qltb pc po then
              cc <- row_item df current "close" ;;
              co <- row_item df current "open" ;;
              if Qgtb cc co then
                co <- row_item df current "open" ;;
                pc <- row_item df previous "close" ;;
                if Qltb co pc then
                  cc <- row_item df current "close" ;;
                  po <- row_item df previous "open" ;;
                  Ok (Qgtb cc po)
                else Ok false
              else Ok false
            else Ok false) ;;
         if bullish : bool then
           Ok (patterns ++ [mkPattern bullish_engulfing name 0.9])
         else
           pc <- row_item df previous "close" ;;
           po <- row_item df previous "open" ;;
           bearish <-
             (if Qgtb pc po then
                cc <- row_item df current "close" ;;
                co <- row_item df current "open" ;;
                if Qltb cc co then
                  co <- row_item df current "open" ;;
                  pc <- row_item df previous "close" ;;
                  if Qgtb co pc then
                    cc <- row_item df current "close" ;;
                    po <- row_item df previous "open" ;;
                    Ok (Qltb cc po)
                  else Ok false
                else Ok false
              else Ok false) ;;
           if bearish : bool then
             Ok (patterns ++ [mkPattern bearish_engulfing name 0.9])
           else Ok patterns
       else Ok patterns)%result
    [].

(** ** [app/ai_model.py]: [initialize_model] and [_create_new_model] *)

Section AIModelInit.

Variable Model : Type.

(** [Sequential([...])] builds a network or raises; [model.compile(...)]
    on it returns or raises. *)
Variable sequential : Result Model.
Variable compile : Model -> Result unit.

Definition _create_new_model : M Model unit :=
  (m <- lift sequential ;;
   s <- get_self ;;
   put_self (set_model Model s m) ;;;
   lift (compile m))%method.

Definition initialize_model : M Model unit :=
  m_try_except
    (s <- get_self ;;
     f <- get_fs ;;
     match model_file f (model_version s) with
     | Some _ =>
         loaded <- lift (read_file (model_file f (model_version s))) ;;
         put_self (set_model Model s loaded)
     | None => _create_new_model
     end)%method
    _create_new_model.

End AIModelInit.

Arguments _create_new_model {Model}.
Arguments initialize_model {Model}.

(** ** Concrete inputs used by the scenarios below *)

(** The prediction {signal: HOLD, confidence: 0.9, probabilities:
    {buy: 0.05, sell: 0.05, hold: 0.9}}. *)
Definition hold_prediction : AIPrediction :=
  mkAIPrediction (Some AI_HOLD) (Some 0.9)
    (Some (mkProbabilities (Some 0.05) (Some 0.05) (Some 0.9))) None.

(** One candle with equal moving averages, a weak ADX and a mid-range RSI,
    and no MACD or stochastic columns. *)
Definition flat_frame : DataFrame :=
  mkDataFrame ["close"; "sma_20"; "sma_50"; "adx"; "rsi"]%string
    [row_of [("close", 100); ("sma_20", 100); ("sma_50", 100);
             ("adx", 15); ("rsi", 50)]%string].


(** A decisive BUY prediction. *)
Definition buy_prediction : AIPrediction :=
  mkAIPrediction (Some AI_BUY) (Some 0.9)
    (Some (mkProbabilities (Some 0.9) (Some 0.05) (Some 0.05))) None.

(** One candle at price 1 with a bullish, strongly trending, oversold
    reading and an ATR of 0.1. *)
Definition bullish_frame : DataFrame :=
  mkDataFrame
    ["close"; "sma_20"; "sma_50"; "adx"; "rsi"; "macd_line"; "macd_signal";
     "stoch_k"; "stoch_d"; "atr"]%string
    [row_of [("close", 1); ("sma_20", 1.1); ("sma_50", 1); ("adx", 30);
             ("rsi", 25); ("macd_line", 0.2); ("macd_signal", 0.1);
             ("stoch_k", 30); ("stoch_d", 20); ("atr", 0.1)]%string].

(** A support level at 0.0 below the price 1, a resistance just above it. *)
Definition zero_support_levels : SupportResistance :=
  mkSupportResistance [0] [1.005].

(** A classifier object over a trivial network, with no file saved. *)
Definition plain_world (features : list string) (L : nat) : World unit :=
  mkWorld (mkAIModel tt unfitted features L 0)
    (mkFileSystem (fun _ => None) (fun _ => None)).

Definition close_frame (closes : list Q) : DataFrame :=
  mkDataFrame ["close"]%string
    (map (fun c => row_of [("close"%string, c)]) closes).

(** Two candles of a negatively priced instrument, falling by 0.05%. *)
Definition negative_frame : DataFrame := close_frame [-100; -100.05].

(** A series of four candles: up 0.2%, exactly 1.001 times, down 0.2%. *)
Definition four_candles : DataFrame := close_frame [1000; 1002; 1003.002; 1000].

(** A series with the required columns and no candle. *)
Definition empty_frame : DataFrame := close_frame [].

(** ** The two data-preparation statements, word for word *)

(** The label of window [i] is BUY iff next > current * 1.001, SELL iff
    next < current * 0.999, HOLD otherwise. *)
Definition label_rule_as_stated : Prop :=
  forall (Model : Type) (w w' : World Model) (df : DataFrame)
         (X : list (list (list Q))) (y : list (list Z)),
    prepare_data df w = (Ok (X, y), w') ->
    forall i : nat, (i < List.length y)%nat ->
    exists closes next cur label,
      col df "close" = Ok closes /\
      iloc closes (Z.of_nat i + Z.of_nat (sequence_length (self w))) = Ok next /\
      iloc closes (Z.of_nat i + Z.of_nat (sequence_length (self w)) - 1)
        = Ok cur /\
      nth_error y i = Some label /\
      (label = [1; 0; 0]%Z <-> cur * 1.001 < next) /\
      (label = [0; 1; 0]%Z <-> next < cur * 0.999) /\
      (label = [0; 0; 1]%Z <-> ~ cur * 1.001 < next /\ ~ next < cur * 0.999).

(** A valid series longer than [sequence_length + 1] gives
    [n - sequence_length] examples with one-hot labels over 3 classes; a
    series shorter than [sequence_length + 1] gives empty arrays. *)
Definition window_count_as_stated : Prop :=
  forall (Model : Type) (w : World Model) (df : DataFrame),
    (forall c, In c (feature_columns (self w)) -> has_column df c = true) ->
    let L := sequence_length (self w) in
    ((len df > L + 1)%nat ->
     exists X y w',
       prepare_data df w = (Ok (X, y), w') /\
       List.length X = (len df - L)%nat /\
       List.length y = (len df - L)%nat /\
       Forall (fun l => List.length l = 3%nat /\ is_one_hot l = true) y) /\
    ((len df < L + 1)%nat ->
     exists w', prepare_data df w = (Ok ([], []), w')).

(** A classifier whose network is named by a number: the active network 1
    with a fitted scaler at version 1, and on disk a network 7 saved as
    [lstm_model_v0.h5] (the file [initialize_model] looks for) with no
    [scaler_v0.npy] beside it. *)
Definition world_with_bare_v0 : World nat :=
  mkWorld
    (mkAIModel 1%nat (mkMinMaxScaler (Some [0.5]) (Some [0]))
       ["close"%string] 1 1)
    (mkFileSystem
       (fun v => if Z.eqb v 0 then Some (Readable 7%nat) else None)
       (fun _ => None)).

(** A fresh classifier: network 1, scaler never fitted, version 0, no file. *)
Definition fresh_world : World nat :=
  mkWorld (mkAIModel 1%nat unfitted ["close"%string] 1 0)
    (mkFileSystem (fun _ => None) (fun _ => None)).

(** Seven candles given as (high, low, close), with a repeated high of 110,
    a repeated low of 90 and a last close of 100. *)
Definition ohlc_frame (candles : list (Q * Q * Q)) : DataFrame :=
  mkDataFrame ["high"; "low"; "close"]%string
    (map (fun c => row_of [("high", fst (fst c)); ("low", snd (fst c));
                           ("close", snd c)]%string) candles).

Definition ranging_candles : DataFrame :=
  ohlc_frame
    [(105, 95, 100); (110, 96, 104); (110, 97, 105); (104, 90, 95);
     (103, 90, 96); (100, 92, 100); (106, 94, 100)].

(** A terminal that knows one symbol, quoted with four decimals and traded
    in steps of 0.01 lot between 0.01 and 100 lots. *)
Definition one_symbol_terminal (symbol : string) : option MT5SymbolInfo :=
  if string_dec symbol "EURUSD"
  then Some (mkMT5SymbolInfo "EURUSD" 1.0999 1.1001 2 4 0.01 100 0.01 0.0001)
  else None.

(** A BUY signal entered at 1.1000 with its stop at 1.0950. *)
Definition eurusd_buy : Signal :=
  mkSignal "t" BUY 0.72 (Some 1.1) (Some 1.095) (Some 1.11) (Some 2)
    (mkSignalMetrics 1 0.45 0.8 0.3) None.

(** A trained classifier at version 3: network 5 with a fitted scaler. *)
Definition trained_world : World nat :=
  mkWorld
    (mkAIModel 5%nat (mkMinMaxScaler (Some [0.25; 2]) (Some [0; -1]))
       ["close"; "rsi"]%string 10 3)
    (mkFileSystem (fun _ => None) (fun _ => None)).

(** A fit that names the updated network by the next number and reports one
    epoch of metrics. *)
Definition counting_fit
    (m : nat) (X : list (list (list Q))) (y : list (list Z))
    (batch epochs : Z) (validation : option (list (list (list Q)) * list (list Z)))
    : nat * Result History :=
  (S m,
   Ok (mkHistory [0.9] [0.5]
         (match validation with Some _ => Some [1.1] | None => None end)
         (match validation with Some _ => Some [0.4] | None => None end))).

Definition default_training : TrainingConfig :=
  mkTrainingConfig 0.2 32 10 0.001.

(** Three candles given as (open, high, low, close): a falling candle, then
    a rising one that opens below the previous close and closes above the
    previous open. *)
Definition ohlc4_frame (candles : list (Q * Q * Q * Q)) : DataFrame :=
  mkDataFrame ["open"; "high"; "low"; "close"]%string
    (map (fun c =>
            row_of [("open", fst (fst (fst c))); ("high", snd (fst (fst c)));
                    ("low", snd (fst c)); ("close", snd c)]%string)
       candles).

Definition engulfing_candles : DataFrame :=
  ohlc4_frame [(100, 101, 99, 100); (102, 103, 99, 100); (99, 105, 98, 104)].
(** ** Elementary facts on the comparisons *)

Lemma Qltb_lt (x y : Q) : Qltb x y = true <-> x < y.
Proof.
  unfold Qltb. rewrite negb_true_iff.
  split; intro H.
  - apply Qnot_le_lt. intro Hle. apply Qle_bool_iff in Hle. congruence.
  - destruct (Qle_bool y x) eqn:E; [|reflexivity].
    apply Qle_bool_iff in E. lra.
Qed.

Lemma Qltb_ge (x y : Q) : Qltb x y = false <-> y <= x.
Proof.
  unfold Qltb. rewrite negb_false_iff. apply Qle_bool_iff.
Qed.

Lemma Qgtb_gt (x y : Q) : Qgtb x y = true <-> y < x.
Proof. apply Qltb_lt. Qed.

Lemma Qgtb_le (x y : Q) : Qgtb x y = false <-> x <= y.
Proof. apply Qltb_ge. Qed.

Ltac cmp_cases :=
  repeat match goal with
  | |- context [Qltb ?a ?b] =>
      let E := fresh "E" in
      destruct (Qltb a b) eqn:E;
      [apply Qltb_lt in E | apply Qltb_ge in E]
  | |- context [Qgtb ?a ?b] =>
      let E := fresh "E" in
      destruct (Qgtb a b) eqn:E;
      [apply Qgtb_gt in E | apply Qgtb_le in E]
  end.

Lemma py_min_spec (a b : Q) : py_min a b <= a /\ py_min a b <= b /\
  (py_min a b == a \/ py_min a b == b).
Proof. unfold py_min. cmp_cases; repeat split; try lra; auto with qarith. Qed.

Lemma py_max_spec (a b : Q) : a <= py_max a b /\ b <= py_max a b /\
  (py_max a b == a \/ py_max a b == b).
Proof. unfold py_max. cmp_cases; repeat split; try lra; auto with qarith. Qed.

Lemma clamp01_range (x : Q) : 0 <= clamp01 x <= 1.
Proof. unfold clamp01, py_max, py_min. cmp_cases; lra. Qed.

Lemma clamp01_mono (x y : Q) : x <= y -> clamp01 x <= clamp01 y.
Proof. intro H. unfold clamp01, py_max, py_min. cmp_cases; lra. Qed.

Lemma clamp01_abs_le (x b : Q) : Qabs x <= b -> b <= 1 -> clamp01 (Qabs x) <= b.
Proof.
  intros H Hb. pose proof (Qabs_nonneg x).
  unfold clamp01, py_max, py_min. cmp_cases; lra.
Qed.

(** ** The signal-type decision *)

Lemma determine_neutral_iff (s : Q) :
  _determine_signal_type s = NEUTRAL <-> s < 0.7.
Proof.
  unfold _determine_signal_type, min_confidence, try_except.
  split.
  - cmp_cases; try discriminate; intros _; lra.
  - intro H. apply Qltb_lt in H. rewrite H. reflexivity.
Qed.

Lemma determine_long_or_neutral (s : Q) :
  _determine_signal_type s = NEUTRAL \/
  _determine_signal_type s = BUY \/
  _determine_signal_type s = STRONG_BUY.
Proof.
  unfold _determine_signal_type, min_confidence, try_except.
  cmp_cases; auto; exfalso; lra.
Qed.

(** [generate_signal] once the price is read, and when it cannot be. *)
Lemma generate_signal_priced
    (now : string) (ai : AIPrediction) (td : DataFrame) (pd : PriceData)
    (sr : SupportResistance) (p : Q) :
  close pd = Some p ->
  generate_signal now ai td pd sr =
  let signal_metrics := signal_metrics_of ai td p sr in
  let overall_score := _calculate_overall_score signal_metrics in
  let t := _determine_signal_type overall_score in
  match t with
  | NEUTRAL => _create_neutral_signal now
  | _ =>
      let levels := _calculate_trade_levels t p td sr in
      mkSignal now t overall_score
        (Some (lv_entry levels)) (lv_stop_loss levels) (lv_take_profit levels)
        (Some (lv_risk_reward_ratio levels)) signal_metrics
        (Some (mkMetadata ai (_get_technical_summary td)))
  end.
Proof.
  intro H. unfold generate_signal. rewrite H.
  cbv beta zeta iota delta [dict_get bind try_except].
  destruct (_determine_signal_type _); reflexivity.
Qed.

Lemma generate_signal_unpriced
    (now : string) (ai : AIPrediction) (td : DataFrame) (pd : PriceData)
    (sr : SupportResistance) :
  close pd = None ->
  generate_signal now ai td pd sr = _create_neutral_signal now.
Proof.
  intro H. unfold generate_signal. rewrite H. reflexivity.
Qed.

Lemma generate_signal_type
    (now : string) (ai : AIPrediction) (td : DataFrame) (pd : PriceData)
    (sr : SupportResistance) :
  signal_type (generate_signal now ai td pd sr) = NEUTRAL \/
  exists p, close pd = Some p /\
    signal_type (generate_signal now ai td pd sr) =
    _determine_signal_type
      (_calculate_overall_score (signal_metrics_of ai td p sr)).
Proof.
  destruct (close pd) as [p|] eqn:Hp.
  - rewrite (generate_signal_priced now ai td pd sr p Hp). cbv zeta.
    right. exists p. split; [reflexivity|].
    destruct (_determine_signal_type _); reflexivity.
  - left. rewrite (generate_signal_unpriced now ai td pd sr Hp). reflexivity.
Qed.

(** C1: for every score the signal-type decision returns NEUTRAL, BUY or
    STRONG_BUY, never SELL or STRONG_SELL; hence no signal emitted by
    [generate_signal] is sell-side. *)
Theorem C1_never_sell :
  (forall s : Q,
     (_determine_signal_type s = NEUTRAL \/
      _determine_signal_type s = BUY \/
      _determine_signal_type s = STRONG_BUY) /\
     _determine_signal_type s <> SELL /\
     _determine_signal_type s <> STRONG_SELL) /\
  (forall s : Q, 0.7 <= s -> Qgtb s 0 = true) /\
  (forall now ai td pd sr,
     is_short (signal_type (generate_signal now ai td pd sr)) = false).
Proof.
  split; [|split].
  - intro s.
    destruct (determine_long_or_neutral s) as [H|[H|H]]; rewrite H;
      repeat split; auto; discriminate.
  - intros s H. apply Qgtb_gt. lra.
  - intros now ai td pd sr.
    destruct (generate_signal_type now ai td pd sr) as [H|[p [_ H]]];
      rewrite H; [reflexivity|].
    destruct (determine_long_or_neutral
                (_calculate_overall_score (signal_metrics_of ai td p sr)))
      as [H'|[H'|H']]; rewrite H'; reflexivity.
Qed.

Lemma C1_never_sell_witness : Qgtb 0.7 0 = true.
Proof.
  apply (proj1 (proj2 C1_never_sell) 0.7). lra.
Defined.

(** C2: the classification is NEUTRAL exactly when the score is below 0.7;
    0.7 itself is not NEUTRAL, 0.699999 is; and whenever the fused score is
    below 0.7 [generate_signal] returns the neutral record, whose entry,
    stop-loss, take-profit and risk:reward fields are all [None]. *)
Theorem C2_neutral_iff_below_min_confidence :
  (forall s : Q, _determine_signal_type s = NEUTRAL <-> s < min_confidence) /\
  _determine_signal_type 0.7 <> NEUTRAL /\
  _determine_signal_type 0.699999 = NEUTRAL /\
  (forall now ai td pd sr p,
     close pd = Some p ->
     _calculate_overall_score (signal_metrics_of ai td p sr) < min_confidence ->
     generate_signal now ai td pd sr = _create_neutral_signal now) /\
  (forall now,
     signal_type (_create_neutral_signal now) = NEUTRAL /\
     entry_price (_create_neutral_signal now) = None /\
     stop_loss (_create_neutral_signal now) = None /\
     take_profit (_create_neutral_signal now) = None /\
     risk_reward_ratio (_create_neutral_signal now) = None).
Proof.
  split; [exact determine_neutral_iff|].
  split; [intro H; apply determine_neutral_iff in H; lra|].
  split; [apply determine_neutral_iff; lra|].
  split.
  - intros now ai td pd sr p Hp Hs.
    apply determine_neutral_iff in Hs.
    rewrite (generate_signal_priced now ai td pd sr p Hp). cbv zeta.
    rewrite Hs. reflexivity.
  - intro now. repeat split.
Qed.

Lemma C2_neutral_iff_below_min_confidence_witness :
  generate_signal "t"
    (mkAIPrediction (Some AI_HOLD) (Some 0.5)
       (Some (mkProbabilities (Some 0.2) (Some 0.3) (Some 0.5))) None)
    (mkDataFrame [] []) (mkPriceData (Some 1)) (mkSupportResistance [] [])
  = _create_neutral_signal "t".
Proof.
  apply (proj1 (proj2 (proj2 (proj2 C2_neutral_iff_below_min_confidence)))
           _ _ _ _ _ 1).
  - reflexivity.
  - vm_compute. reflexivity.
Defined.

(** ** The weighted fusion *)

Lemma weighted_sum_eq (m : SignalMetrics) :
  weighted_sum m ==
  ai_score m * 0.4 + trend_score m * 0.25 + momentum_score m * 0.2 +
  support_resistance_score m * 0.15.
Proof. unfold weighted_sum. simpl. ring. Qed.

(** C9: with trend, momentum and support/resistance scores fixed, the
    overall score is non-decreasing in the AI score. *)
Theorem C9_overall_score_monotone_in_ai
    (a a' t m s : Q) (H : a <= a') :
  _calculate_overall_score (mkSignalMetrics a t m s) <=
  _calculate_overall_score (mkSignalMetrics a' t m s).
Proof.
  unfold _calculate_overall_score, try_except.
  apply clamp01_mono. rewrite !weighted_sum_eq. simpl. lra.
Qed.

Lemma C9_overall_score_monotone_in_ai_witness :
  _calculate_overall_score (mkSignalMetrics 0.5 0.45 0.8 0.5) <=
  _calculate_overall_score (mkSignalMetrics 1 0.45 0.8 0.5).
Proof.
  apply C9_overall_score_monotone_in_ai. lra.
Defined.

Lemma clamp01_Qeq (x y : Q) : x == y -> clamp01 x == clamp01 y.
Proof.
  intro H. apply Qle_antisym; apply clamp01_mono; lra.
Qed.

(** ** The confident-HOLD scenario *)

(** C10: a HOLD prediction of confidence 0.9 with buy and sell probability
    0.05 gets no 1.2 boost (AI score 0.9); with trend, momentum and
    support/resistance sub-scores all 0 the overall score is 0.36 and the
    cycle is classified NEUTRAL. *)
Theorem C10_confident_hold_is_neutral
    (now : string) (td : DataFrame) (pd : PriceData) (sr : SupportResistance)
    (p : Q)
    (Hp : close pd = Some p)
    (Htrend : _evaluate_trend td == 0)
    (Hmom : _evaluate_momentum td == 0)
    (Hsr : _evaluate_support_resistance p sr == 0) :
  _evaluate_ai_signal hold_prediction == 0.9 /\
  _calculate_overall_score (signal_metrics_of hold_prediction td p sr) == 0.36 /\
  generate_signal now hold_prediction td pd sr = _create_neutral_signal now.
Proof.
  assert (Hai : _evaluate_ai_signal hold_prediction == 0.9)
    by (vm_compute; reflexivity).
  assert (Hs : _calculate_overall_score
                 (signal_metrics_of hold_prediction td p sr) == 0.36).
  { unfold _calculate_overall_score, try_except.
    assert (E : clamp01 0.36 == 0.36) by (vm_compute; reflexivity).
    rewrite <- E. apply clamp01_Qeq.
    rewrite weighted_sum_eq. unfold signal_metrics_of. simpl.
    rewrite Hai, Htrend, Hmom, Hsr. reflexivity. }
  split; [exact Hai|]. split; [exact Hs|].
  rewrite (generate_signal_priced now hold_prediction td pd sr p Hp).
  cbv zeta.
  assert (Hn : _determine_signal_type
                 (_calculate_overall_score
                    (signal_metrics_of hold_prediction td p sr)) = NEUTRAL).
  { apply determine_neutral_iff. rewrite Hs. reflexivity. }
  rewrite Hn. reflexivity.
Qed.

Lemma C10_confident_hold_is_neutral_witness :
  _evaluate_ai_signal hold_prediction == 0.9 /\
  _calculate_overall_score
    (signal_metrics_of hold_prediction flat_frame 100
       (mkSupportResistance [] [])) == 0.36 /\
  generate_signal "t" hold_prediction flat_frame (mkPriceData (Some 100))
    (mkSupportResistance [] []) = _create_neutral_signal "t".
Proof.
  apply (C10_confident_hold_is_neutral "t" flat_frame
           (mkPriceData (Some 100)) (mkSupportResistance [] []) 100).
  - reflexivity.
  - vm_compute. reflexivity.
  - vm_compute. reflexivity.
  - vm_compute. reflexivity.
Defined.

(** ** Trade levels *)

(** What a long signal's levels are whenever the frame has a latest row:
    entry is the price, the stop is the nearest support below the price when
    that value is true as a Python condition, else price - 2 ATR, and the
    target is entry + (entry - stop) * 2. *)
Lemma trade_levels_long
    (t : SignalType) (p : Q) (td : DataFrame) (sr : SupportResistance)
    (latest : Series) :
  is_long t = true ->
  df_latest td = Ok latest ->
  let lv := _calculate_trade_levels t p td sr in
  let sl := or_else (nearest_below (support sr) p) (p - 2 * atr_of latest p) in
  lv_entry lv = p /\
  lv_stop_loss lv = Some sl /\
  lv_take_profit lv = Some (p + (p - sl) * 2).
Proof.
  intros Ht Hl. unfold _calculate_trade_levels. rewrite Hl. simpl.
  rewrite Ht. simpl. repeat split.
Qed.

(** C7 at a support level of 0.0: the signal is BUY at price 1, the nearest
    support strictly below the price exists and is 0, yet the stop-loss is
    1 - 2 * 0.1 = 0.8, the ATR fallback; the take-profit follows the stop
    that was chosen. *)
Theorem C7_zero_support_takes_atr_fallback :
  let s := generate_signal "t" buy_prediction bullish_frame
             (mkPriceData (Some 1)) zero_support_levels in
  signal_type s = BUY /\
  entry_price s = Some 1 /\
  nearest_below (support zero_support_levels) 1 = Some 0 /\
  (exists sl, stop_loss s = Some sl /\ sl == 0.8 /\ ~ sl == 0) /\
  (exists tp, take_profit s = Some tp /\ tp == 1 + (1 - 0.8) * 2).
Proof.
  vm_compute.
  split; [reflexivity|]. split; [reflexivity|]. split; [reflexivity|].
  split.
  - eexists. split; [reflexivity|]. split; [reflexivity|discriminate].
  - eexists. split; reflexivity.
Qed.

(** ** Loops that may raise *)

Lemma mapM_length {A B} (f : A -> Result B) (l : list A) (r : list B) :
  mapM f l = Ok r -> List.length r = List.length l.
Proof.
  revert r. induction l as [|a t IH]; intros r H; simpl in H.
  - injection H as <-. reflexivity.
  - destruct (f a) as [b|e]; simpl in H; [|discriminate].
    destruct (mapM f t) as [bs|e]; simpl in H; [|discriminate].
    injection H as <-. simpl. f_equal. apply IH. reflexivity.
Qed.

Lemma mapM_nth {A B} (f : A -> Result B) (l : list A) (r : list B) :
  mapM f l = Ok r ->
  forall i a, nth_error l i = Some a ->
  exists b, f a = Ok b /\ nth_error r i = Some b.
Proof.
  revert r. induction l as [|x t IH]; intros r H i a Hi; simpl in H.
  - destruct i; discriminate.
  - destruct (f x) as [b|e] eqn:Ex; simpl in H; [|discriminate].
    destruct (mapM f t) as [bs|e]; simpl in H; [|discriminate].
    injection H as <-.
    destruct i as [|i]; simpl in Hi.
    + injection Hi as <-. exists b. split; [assumption|reflexivity].
    + simpl. apply (IH bs eq_refl i a Hi).
Qed.

Lemma mapM_total {A B} (f : A -> Result B) (l : list A) :
  (forall a, In a l -> exists b, f a = Ok b) ->
  exists r, mapM f l = Ok r.
Proof.
  induction l as [|x t IH]; intro H; simpl.
  - eexists. reflexivity.
  - destruct (H x (or_introl eq_refl)) as [b Hb]. rewrite Hb. simpl.
    destruct IH as [bs Hbs]; [intros a Ha; apply H; right; exact Ha|].
    rewrite Hbs. simpl. eexists. reflexivity.
Qed.

(** ** Positional access *)

Lemma iloc_nonneg {A} (l : list A) (i : nat) :
  iloc l (Z.of_nat i) =
  match nth_error l i with
  | Some a => Ok a
  | None => Raise IndexError
  end.
Proof.
  unfold iloc.
  destruct (Z.ltb_spec (Z.of_nat i) 0) as [H|H]; [lia|].
  destruct (Z.ltb_spec (Z.of_nat i) 0) as [H'|_]; [lia|].
  rewrite Nat2Z.id. reflexivity.
Qed.

Lemma iloc_in_range {A} (l : list A) (z : Z) :
  (- Z.of_nat (List.length l) <= z < Z.of_nat (List.length l))%Z ->
  exists a, iloc l z = Ok a.
Proof.
  intro H. unfold iloc.
  destruct (Z.ltb_spec z 0) as [Hz|Hz].
  - destruct (Z.ltb_spec (Z.of_nat (List.length l) + z) 0) as [H'|H']; [lia|].
    destruct (nth_error l (Z.to_nat (Z.of_nat (List.length l) + z))) eqn:E.
    + eexists. reflexivity.
    + apply nth_error_None in E. lia.
  - destruct (Z.ltb_spec z 0) as [H'|_]; [lia|].
    destruct (nth_error l (Z.to_nat z)) eqn:E.
    + eexists. reflexivity.
    + apply nth_error_None in E. lia.
Qed.

(** ** The scaler keeps the number of rows *)

Lemma fit_transform_ok (X scaled : list (list Q)) (sc : MinMaxScaler) :
  fit_transform X = (Ok scaled, sc) -> List.length scaled = List.length X.
Proof.
  unfold fit_transform. destruct X as [|r rest]; [discriminate|].
  destruct (is_empty r); [discriminate|].
  intro H. injection H as <- _. unfold scaler_transform.
  simpl. f_equal. apply length_map.
Qed.

Lemma fit_transform_total (r : list Q) (rest : list (list Q)) :
  r <> [] -> exists scaled sc, fit_transform (r :: rest) = (Ok scaled, sc).
Proof.
  intro H. unfold fit_transform.
  destruct r; [contradiction|]. simpl. eauto.
Qed.

(** ** The target of a window *)

Lemma target_of_spec (next cur : Q) :
  (target_of next cur = [1; 0; 0]%Z <-> cur * 1.001 < next) /\
  (target_of next cur = [0; 1; 0]%Z <->
     next < cur * 0.999 /\ ~ cur * 1.001 < next) /\
  (target_of next cur = [0; 0; 1]%Z <->
     ~ cur * 1.001 < next /\ ~ next < cur * 0.999).
Proof.
  unfold target_of.
  cmp_cases; repeat split; intros; try discriminate; try lra;
    try (exfalso; lra); tauto.
Qed.

(** ** [prepare_data] *)

Lemma mapM_Forall {A B} (f : A -> Result B) (P : B -> Prop)
    (l : list A) (r : list B) :
  mapM f l = Ok r ->
  (forall a b, In a l -> f a = Ok b -> P b) ->
  Forall P r.
Proof.
  revert r. induction l as [|x t IH]; intros r H HP; simpl in H.
  - injection H as <-. constructor.
  - destruct (f x) as [b|e] eqn:Ex; simpl in H; [|discriminate].
    destruct (mapM f t) as [bs|e]; simpl in H; [|discriminate].
    injection H as <-. constructor.
    + apply (HP x b); [left; reflexivity|assumption].
    + apply IH; [reflexivity|]. intros a b' Ha. apply HP. right. exact Ha.
Qed.

Lemma missing_features_empty (df : DataFrame) (cols : list string) :
  is_empty (filter (fun c => negb (has_column df c)) cols) = true <->
  (forall c, In c cols -> has_column df c = true).
Proof.
  induction cols as [|c t IH]; simpl.
  - split; [intros _ c []|reflexivity].
  - destruct (has_column df c) eqn:E; simpl.
    + rewrite IH. split.
      * intros H c' [<-|Hc]; auto.
      * intros H c' Hc. apply H. right. exact Hc.
    + split; [discriminate|].
      intro H. specialize (H c (or_introl eq_refl)). congruence.
Qed.

(** The three ways [prepare_data] can end, read off its definition. *)
Lemma prepare_data_unfold {Model} (df : DataFrame) (w : World Model) :
  let s := self w in
  let w1 sc := mkWorld (set_scaler Model s sc) (fs w) in
  prepare_data df w =
  if negb (is_empty (filter (fun c => negb (has_column df c))
                       (feature_columns s)))
  then (Raise ValueError, w)
  else
    match fit_transform (feature_matrix df (feature_columns s)) with
    | (Raise e, sc) => (Raise e, w1 sc)
    | (Ok scaled, sc) =>
        match mapM (window_example df scaled (sequence_length s))
                (seq 0 (List.length scaled - sequence_length s)) with
        | Ok examples => (Ok (map fst examples, map snd examples), w1 sc)
        | Raise e => (Raise e, w1 sc)
        end
    end.
Proof.
  simpl. unfold prepare_data, mbind, get_self, put_self, lift, raise, ret,
    feature_matrix.
  destruct (negb _); [reflexivity|].
  destruct (fit_transform _) as [[scaled|e] sc]; simpl; [|reflexivity].
  destruct (mapM _ _); reflexivity.
Qed.

Lemma window_example_target
    (df : DataFrame) (scaled : list (list Q)) (L i : nat)
    (win : list (list Q)) (label : list Z) :
  window_example df scaled L i = Ok (win, label) ->
  exists closes next cur,
    col df "close" = Ok closes /\
    iloc closes (Z.of_nat i + Z.of_nat L) = Ok next /\
    iloc closes (Z.of_nat i + Z.of_nat L - 1) = Ok cur /\
    win = slice scaled i (i + L) /\
    label = target_of next cur.
Proof.
  unfold window_example. intro H.
  destruct (col df "close") as [closes|e] eqn:Ec; simpl in H; [|discriminate].
  destruct (iloc closes (Z.of_nat i + Z.of_nat L)) as [next|e] eqn:En;
    simpl in H; [|discriminate].
  destruct (iloc closes (Z.of_nat i + Z.of_nat L - 1)) as [cur|e] eqn:Eu;
    simpl in H; [|discriminate].
  injection H as <- <-. exists closes, next, cur. repeat split; assumption.
Qed.

Lemma target_of_one_hot (next cur : Q) :
  List.length (target_of next cur) = 3%nat /\
  is_one_hot (target_of next cur) = true.
Proof. unfold target_of. cmp_cases; split; reflexivity. Qed.

Lemma prepare_data_labels {Model} (w w' : World Model) (df : DataFrame)
    (X : list (list (list Q))) (y : list (list Z)) :
  prepare_data df w = (Ok (X, y), w') ->
  forall i : nat, (i < List.length y)%nat ->
  exists closes next cur,
    col df "close" = Ok closes /\
    iloc closes (Z.of_nat i + Z.of_nat (sequence_length (self w))) = Ok next /\
    iloc closes (Z.of_nat i + Z.of_nat (sequence_length (self w)) - 1)
      = Ok cur /\
    nth_error y i = Some (target_of next cur).
Proof.
  intros H i Hi. rewrite prepare_data_unfold in H. simpl in H.
  destruct (negb _); [discriminate|].
  destruct (fit_transform _) as [[scaled|e] sc]; [|discriminate].
  destruct (mapM _ _) as [examples|e] eqn:Em; [|discriminate].
  injection H as <- <- _.
  rewrite length_map in Hi.
  pose proof (mapM_length _ _ _ Em) as Hlen. rewrite length_seq in Hlen.
  assert (Hs : nth_error (seq 0 (List.length scaled -
                                  sequence_length (self w))) i = Some i).
  { rewrite nth_error_seq.
    destruct (Nat.ltb_spec i (List.length scaled - sequence_length (self w)));
      [reflexivity|lia]. }
  destruct (mapM_nth _ _ _ Em i i Hs) as [[win label] [Hw Hn]].
  apply window_example_target in Hw.
  destruct Hw as (closes & next & cur & Hc & Hnx & Hcu & _ & ->).
  exists closes, next, cur. repeat split; try assumption.
  rewrite nth_error_map, Hn. reflexivity.
Qed.




Lemma feature_matrix_length (df : DataFrame) (cols : list string) :
  List.length (feature_matrix df cols) = len df.
Proof. unfold feature_matrix, len. apply length_map. Qed.

Lemma fit_transform_features (df : DataFrame) (cols : list string) :
  cols <> [] -> (1 <= len df)%nat ->
  exists scaled sc,
    fit_transform (feature_matrix df cols) = (Ok scaled, sc) /\
    List.length scaled = len df.
Proof.
  intros Hc Hn. unfold feature_matrix, len in *.
  destruct (rows df) as [|r rest] eqn:Er; [simpl in Hn; lia|].
  simpl map.
  destruct (fit_transform_total (map r cols)
              (map (fun r0 : Row => map r0 cols) rest))
    as (scaled & sc & E).
  { destruct cols; [contradiction|discriminate]. }
  exists scaled, sc. split; [exact E|].
  apply fit_transform_ok in E. rewrite E. simpl. now rewrite length_map.
Qed.

Lemma slice_length {A} (l : list A) (i L : nat) :
  (i + L <= List.length l)%nat -> List.length (slice l i (i + L)) = L.
Proof.
  intro H. unfold slice. rewrite length_firstn, length_skipn. lia.
Qed.

(** C6, as the code has it: for a series with every required feature column
    (at least one is required), of length n, and L = sequence_length:
    if n > L + 1 and the series has a close column, data preparation
    returns exactly n - L examples, each window of L rows and each label
    one-hot over exactly 3 classes; if 1 <= n < L + 1 it returns empty
    arrays; if n = 0 the scaler rejects the empty matrix and data
    preparation raises ValueError. *)
Theorem C6_window_count {Model} (w : World Model) (df : DataFrame)
    (Hfeat : forall c, In c (feature_columns (self w)) ->
                       has_column df c = true)
    (Hne : feature_columns (self w) <> []) :
  let L := sequence_length (self w) in
  ((len df > L + 1)%nat -> has_column df "close" = true ->
   exists X y w',
     prepare_data df w = (Ok (X, y), w') /\
     List.length X = (len df - L)%nat /\
     List.length y = (len df - L)%nat /\
     Forall (fun win => List.length win = L) X /\
     Forall (fun l => List.length l = 3%nat /\ is_one_hot l = true) y) /\
  ((1 <= len df < L + 1)%nat ->
   exists w', prepare_data df w = (Ok ([], []), w')) /\
  (len df = 0%nat ->
   exists w', prepare_data df w = (Raise ValueError, w')).
Proof.
  intro L. subst L.
  set (L := sequence_length (self w)).
  apply missing_features_empty in Hfeat.
  rewrite prepare_data_unfold. simpl. rewrite Hfeat. simpl. fold L.
  split; [|split].
  - intros Hn Hclose.
    destruct (fit_transform_features df _ Hne) as (scaled & sc & E & Hlen);
      [lia|].
    rewrite E.
    assert (Hcol : col df "close" =
                   Ok (map (fun r : Row => r "close"%string) (rows df))).
    { unfold col. rewrite Hclose. reflexivity. }
    destruct (mapM_total (window_example df scaled L)
                (seq 0 (List.length scaled - L))) as [examples Em].
    { intros i Hi. apply in_seq in Hi. unfold window_example.
      rewrite Hcol. simpl.
      set (closes := map (fun r : Row => r "close"%string) (rows df)).
      assert (Hc : List.length closes = len df)
        by (unfold closes, len; apply length_map).
      destruct (iloc_in_range closes (Z.of_nat i + Z.of_nat L)) as [a Ha];
        [lia|].
      destruct (iloc_in_range closes (Z.of_nat i + Z.of_nat L - 1))
        as [b Hb]; [lia|].
      rewrite Ha, Hb. simpl. eexists. reflexivity. }
    rewrite Em.
    pose proof (mapM_length _ _ _ Em) as Hl. rewrite length_seq in Hl.
    do 3 eexists. split; [reflexivity|].
    rewrite !length_map.
    split; [lia|]. split; [lia|]. split.
    + apply Forall_map.
      apply (mapM_Forall _ _ _ _ Em). intros i [win label] Hi Hw.
      apply in_seq in Hi.
      apply window_example_target in Hw.
      destruct Hw as (_ & _ & _ & _ & _ & _ & -> & _).
      simpl. apply slice_length. lia.
    + apply Forall_map.
      apply (mapM_Forall _ _ _ _ Em). intros i [win label] Hi Hw.
      apply window_example_target in Hw.
      destruct Hw as (_ & next & cur & _ & _ & _ & _ & ->).
      simpl. apply target_of_one_hot.
  - intros Hn.
    destruct (fit_transform_features df _ Hne) as (scaled & sc & E & Hlen);
      [lia|].
    rewrite E.
    replace (List.length scaled - L)%nat with 0%nat by lia.
    simpl. eexists. reflexivity.
  - intros Hn.
    assert (E : feature_matrix df (feature_columns (self w)) = []).
    { unfold feature_matrix, len in *.
      destruct (rows df); [reflexivity|discriminate]. }
    rewrite E. simpl. eexists. reflexivity.
Qed.

Lemma C6_window_count_witness :
  exists X y w',
    prepare_data four_candles (plain_world ["close"%string] 1) =
      (Ok (X, y), w') /\
    List.length X = (len four_candles - 1)%nat /\
    List.length y = (len four_candles - 1)%nat /\
    Forall (fun win => List.length win = 1%nat) X /\
    Forall (fun l => List.length l = 3%nat /\ is_one_hot l = true) y.
Proof.
  apply (proj1 (C6_window_count (plain_world ["close"%string] 1) four_candles
                  ltac:(intros c [<-|[]]; reflexivity)
                  ltac:(discriminate))).
  - vm_compute. lia.
  - reflexivity.
Defined.

(** C6 as stated fails on the series with no candle: its length 0 is below
    sequence_length + 1, and data preparation raises ValueError instead of
    returning empty arrays. *)
Lemma C6_window_count_counterexample : ~ window_count_as_stated.
Proof.
  intro Hc.
  destruct (Hc unit (plain_world ["close"%string] 1) empty_frame) as [_ H].
  { intros c [<-|[]]. reflexivity. }
  destruct H as [w' H]; [vm_compute; lia|].
  vm_compute in H. discriminate H.
Qed.

(** ** [predict] *)

Lemma predict_body_short_series {Model}
    (keras_predict : Model -> list (list (list Q)) -> Result (list (list Q)))
    (now : string) (df : DataFrame) (w : World Model) :
  (len df < sequence_length (self w) + 1)%nat ->
  exists e w', predict_body keras_predict now df w = (Raise e, w').
Proof.
  intro Hn. unfold predict_body, mbind at 1.
  rewrite prepare_data_unfold. simpl.
  destruct (negb _); [unfold raise; eauto|].
  destruct (fit_transform _) as [[scaled|e] sc] eqn:E; [|eauto].
  apply fit_transform_ok in E. rewrite feature_matrix_length in E.
  replace (List.length scaled - sequence_length (self w))%nat with 0%nat
    by lia.
  simpl. unfold raise. eauto.
Qed.

(** C3: [predict] returns a record for every series and every behaviour of
    the network, never an exception; whenever its [try] block raises, and in
    particular when the series is shorter than sequence_length + 1, the
    record is the safe neutral one: signal HOLD, confidence 0.0,
    probabilities buy 0.0, sell 0.0, hold 1.0. *)
Theorem C3_predict_never_raises {Model}
    (keras_predict : Model -> list (list (list Q)) -> Result (list (list Q)))
    (now : string) (df : DataFrame) (w : World Model) :
  exists p w',
    predict keras_predict now df w = (Ok p, w') /\
    (forall e w'', predict_body keras_predict now df w = (Raise e, w'') ->
                   p = safe_neutral now) /\
    ((len df < sequence_length (self w) + 1)%nat -> p = safe_neutral now) /\
    signal (safe_neutral now) = Some AI_HOLD /\
    confidence (safe_neutral now) = Some 0 /\
    probabilities (safe_neutral now) =
      Some (mkProbabilities (Some 0) (Some 0) (Some 1)).
Proof.
  unfold predict, m_try_except, ret.
  destruct (predict_body keras_predict now df w) as [[p|e] w'] eqn:E.
  - exists p, w'. split; [reflexivity|].
    split; [intros e w'' H; discriminate H|].
    split; [|repeat split].
    intro Hn.
    destruct (predict_body_short_series keras_predict now df w Hn)
      as (e & w'' & H).
    congruence.
  - exists (safe_neutral now), w'. repeat split.
Qed.

Lemma C3_predict_never_raises_witness :
  exists w',
    predict (fun (_ : unit) (_ : list (list (list Q))) => Ok [[0.2; 0.3; 0.5]])
      "t" (close_frame [1]) (plain_world ["close"%string] 1)
    = (Ok (safe_neutral "t"), w').
Proof.
  destruct (C3_predict_never_raises
              (fun (_ : unit) (_ : list (list (list Q))) =>
                 Ok [[0.2; 0.3; 0.5]])
              "t" (close_frame [1]) (plain_world ["close"%string] 1))
    as (p & w' & H & _ & Hshort & _).
  exists w'. rewrite H. f_equal. f_equal.
  apply Hshort. vm_compute. lia.
Defined.

(** ** Saving and loading versions *)

(** A version whose model file is absent: [FileNotFoundError], and nothing
    is changed. *)
Lemma load_absent_version {Model} (w : World Model) (v : Z) :
  model_file (fs w) v = None ->
  load_specific_version v w = (Raise FileNotFoundError, w).
Proof.
  intro H. unfold load_specific_version, mbind, get_fs. rewrite H.
  reflexivity.
Qed.

(** A version whose model file is damaged: the load raises before any
    assignment. *)
Lemma load_damaged_model {Model} (w : World Model) (v : Z) :
  model_file (fs w) v = Some Damaged ->
  load_specific_version v w = (Raise OSError, w).
Proof.
  intro H. unfold load_specific_version, mbind, get_fs. rewrite H.
  reflexivity.
Qed.

(** A version whose model file loads but whose scaler file does not: the
    exception leaves the object with the new network and the old scaler
    and version. *)
Lemma load_without_scaler {Model} (w : World Model) (v : Z) (m : Model) :
  model_file (fs w) v = Some (Readable m) ->
  (forall a, scaler_file (fs w) v <> Some (Readable a)) ->
  exists e,
    load_specific_version v w =
    (Raise e, mkWorld (set_model Model (self w) m) (fs w)).
Proof.
  intros Hm Hs.
  unfold load_specific_version, mbind, get_fs, get_self, put_self, lift.
  rewrite Hm. simpl.
  destruct (scaler_file (fs w) v) as [[a|]|] eqn:E; simpl.
  - exfalso. apply (Hs a). reflexivity.
  - eexists. reflexivity.
  - eexists. reflexivity.
Qed.

(** A complete version is loaded whole. *)
Lemma load_complete_version {Model} (w : World Model) (v : Z) (m : Model)
    (a : list Q) :
  model_file (fs w) v = Some (Readable m) ->
  scaler_file (fs w) v = Some (Readable a) ->
  load_specific_version v w =
  (Ok tt,
   mkWorld (mkAIModel m (mkMinMaxScaler (Some a) (min_ (scaler (self w))))
              (feature_columns (self w)) (sequence_length (self w)) v)
     (fs w)).
Proof.
  intros Hm Hs.
  unfold load_specific_version, mbind, get_fs, get_self, put_self, lift.
  rewrite Hm. simpl. rewrite Hs. reflexivity.
Qed.

(** [save_model] on a classifier whose scaler was never fitted writes the
    model file of the next version, then raises at [self.scaler.scale_]:
    a version with a model file and no scaler file. *)
Lemma save_unfitted_leaves_bare_version :
  exists w',
    save_model fresh_world = (Raise AttributeError, w') /\
    model_version (self w') = 1%Z /\
    model_file (fs w') 1 = Some (Readable 1%nat) /\
    scaler_file (fs w') 1 = None.
Proof.
  eexists. split; [vm_compute; reflexivity|]. repeat split.
Qed.

(** C4 at a version with a model file and no scaler file: loading it raises
    FileNotFoundError, and the object is left with the network of that
    version where the active one was, next to the scaler and the version
    counter of the state before the call. *)
Theorem C4_failed_load_changes_model :
  exists w',
    load_specific_version 0 world_with_bare_v0 =
      (Raise FileNotFoundError, w') /\
    model (self world_with_bare_v0) = 1%nat /\
    model (self w') = 7%nat /\
    scaler (self w') = scaler (self world_with_bare_v0) /\
    model_version (self w') = model_version (self world_with_bare_v0) /\
    self w' <> self world_with_bare_v0.
Proof.
  eexists. split; [vm_compute; reflexivity|]. repeat split. discriminate.
Qed.

(** ** Sorting and deduplication of the levels *)

Lemma Qle_bool_false (x y : Q) : Qle_bool x y = false -> y < x.
Proof.
  intro H. apply Qnot_le_lt. intro Hle. apply Qle_bool_iff in Hle. congruence.
Qed.

Lemma insert_sorted_In (x y : Q) (l : list Q) :
  In y (insert_sorted x l) <-> y = x \/ In y l.
Proof.
  induction l as [|z t IH]; simpl.
  - intuition.
  - destruct (Qle_bool x z); simpl; [intuition|].
    rewrite IH. intuition.
Qed.

Lemma py_sorted_In (y : Q) (l : list Q) : In y (py_sorted l) <-> In y l.
Proof.
  induction l as [|x t IH]; simpl; [tauto|].
  rewrite insert_sorted_In, IH. intuition.
Qed.

Lemma insert_sorted_strict (x : Q) (l : list Q) :
  StronglySorted Qlt l ->
  Forall (fun y => ~ x == y) l ->
  StronglySorted Qlt (insert_sorted x l).
Proof.
  induction l as [|z t IH]; intros Hs Hd; simpl.
  - constructor; constructor.
  - inversion Hs as [|? ? Hst Hz]; subst.
    inversion Hd as [|? ? Hxz Hxt]; subst.
    destruct (Qle_bool x z) eqn:E.
    + apply Qle_bool_iff in E.
      assert (Hlt : x < z).
      { apply Qle_lt_or_eq in E. destruct E; [assumption|contradiction]. }
      constructor; [assumption|].
      constructor; [assumption|].
      eapply Forall_impl; [|exact Hz]. intros a Ha. simpl in Ha.
      apply Qlt_trans with z; assumption.
    + apply Qle_bool_false in E.
      constructor; [apply IH; assumption|].
      apply Forall_forall. intros a Ha.
      apply insert_sorted_In in Ha. destruct Ha as [->|Ha]; [assumption|].
      rewrite Forall_forall in Hz. apply Hz. exact Ha.
Qed.

Lemma distinct_filter (f : Q -> bool) (l : list Q) :
  distinct l -> distinct (filter f l).
Proof.
  unfold distinct. induction 1 as [|a l Hs IH Ha]; simpl; [constructor|].
  destruct (f a); [|assumption].
  constructor; [assumption|].
  apply Forall_forall. intros b Hb. apply filter_In in Hb.
  rewrite Forall_forall in Ha. apply Ha. tauto.
Qed.

Lemma py_set_distinct (l : list Q) : distinct (py_set l).
Proof.
  induction l as [|x t IH]; simpl; constructor.
  - apply distinct_filter. exact IH.
  - apply Forall_forall. intros y Hy. apply filter_In in Hy.
    destruct Hy as [_ Hy]. apply negb_true_iff in Hy.
    intro E. apply Qeq_bool_iff in E. congruence.
Qed.

(** The set holds the values of the list, and only them. *)
Lemma py_set_In (l : list Q) (x : Q) :
  (exists y, In y (py_set l) /\ y == x) <-> (exists y, In y l /\ y == x).
Proof.
  induction l as [|a t IH]; simpl.
  - split; intros (y & [] & _).
  - split.
    + intros (y & [<-|Hy] & E); [exists a; auto|].
      apply filter_In in Hy. destruct Hy as [Hy _].
      destruct (proj1 IH (ex_intro _ y (conj Hy E))) as (z & Hz & Ez).
      exists z. auto.
    + intros (y & [<-|Hy] & E); [exists a; auto|].
      destruct (Qeq_bool a x) eqn:Ea.
      * apply Qeq_bool_iff in Ea. exists a. auto.
      * destruct (proj2 IH (ex_intro _ y (conj Hy E))) as (z & Hz & Ez).
        exists z. split; [|assumption]. right.
        apply filter_In. split; [assumption|].
        apply negb_true_iff.
        destruct (Qeq_bool a z) eqn:Eaz; [|reflexivity].
        apply Qeq_bool_iff in Eaz.
        assert (Hax : a == x) by (rewrite Eaz; exact Ez).
        apply Qeq_bool_iff in Hax. congruence.
Qed.

Lemma py_sorted_strict (l : list Q) :
  distinct l -> StronglySorted Qlt (py_sorted l).
Proof.
  unfold distinct. induction 1 as [|a l Hs IH Ha]; simpl; [constructor|].
  apply insert_sorted_strict; [assumption|].
  apply Forall_forall. intros y Hy.
  apply (proj1 (py_sorted_In y l)) in Hy.
  rewrite Forall_forall in Ha. apply Ha. exact Hy.
Qed.

(** ** Support and resistance *)

Lemma filter_below (price : Q) (l : list Q) :
  Forall (fun x => x < price) (filter (fun x => Qltb x price) l).
Proof.
  apply Forall_forall. intros x Hx. apply filter_In in Hx.
  apply Qltb_lt. tauto.
Qed.

Lemma filter_above (price : Q) (l : list Q) :
  Forall (fun x => price < x) (filter (fun x => Qgtb x price) l).
Proof.
  apply Forall_forall. intros x Hx. apply filter_In in Hx.
  apply Qgtb_gt. tauto.
Qed.

(** C8: every support level returned is strictly below the latest close and
    every resistance level strictly above it, so a level equal to the close
    is in neither list; the two lists are the levels below and above the
    close taken from the found levels after [sorted(list(set(levels)))],
    a list in strictly ascending order (sorted, without duplicates) that
    holds exactly the values found; and when the detection fails both lists
    are empty. *)
Theorem C8_support_resistance_partition
    (df : DataFrame) (window : nat) (num_touches : Z) :
  let r := detect_support_resistance df window num_touches in
  (forall price, latest_close df = Ok price ->
     Forall (fun l => l < price) (support r) /\
     Forall (fun l => price < l) (resistance r) /\
     (forall l, l == price -> ~ In l (support r) /\ ~ In l (resistance r))) /\
  (forall raw price,
     found_levels df window num_touches = Ok raw ->
     latest_close df = Ok price ->
     let levels := py_sorted (py_set raw) in
     StronglySorted Qlt levels /\
     (forall x, (exists y, In y levels /\ y == x) <->
                (exists y, In y raw /\ y == x)) /\
     support r = filter (fun l => Qltb l price) levels /\
     resistance r = filter (fun l => Qgtb l price) levels) /\
  ((forall raw, found_levels df window num_touches <> Ok raw) \/
   (forall price, latest_close df <> Ok price) ->
   support r = [] /\ resistance r = []).
Proof.
  unfold detect_support_resistance.
  destruct (found_levels df window num_touches) as [raw|e] eqn:Ef; simpl.
  - destruct (latest_close df) as [price|e] eqn:El; simpl.
    + split; [|split].
      * intros p Hp. injection Hp as <-.
        pose proof (filter_below price (py_sorted (py_set raw))) as Hb.
        pose proof (filter_above price (py_sorted (py_set raw))) as Ha.
        split; [exact Hb|]. split; [exact Ha|].
        rewrite Forall_forall in Hb, Ha.
        intros l E. split; intro Hin.
        -- apply Hb in Hin. lra.
        -- apply Ha in Hin. lra.
      * intros raw' p Hr Hp. injection Hr as <-. injection Hp as <-.
        split; [apply py_sorted_strict, py_set_distinct|].
        split; [|split; reflexivity].
        intro x. split.
        -- intros (y & Hy & E). apply (proj1 (py_set_In raw x)).
           exists y. split; [|exact E].
           apply (proj1 (py_sorted_In y (py_set raw))). exact Hy.
        -- intro H. apply (proj2 (py_set_In raw x)) in H.
           destruct H as (y & Hy & E). exists y. split; [|exact E].
           apply (proj2 (py_sorted_In y (py_set raw))). exact Hy.
      * intros [H|H]; [exfalso; apply (H raw)|exfalso; apply (H price)];
          reflexivity.
    + split; [|split].
      * intros p Hp. discriminate Hp.
      * intros raw' p _ Hp. discriminate Hp.
      * intros _. split; reflexivity.
  - split; [|split].
    + intros p _. repeat split; try constructor; intros [].
    + intros raw p Hr. discriminate Hr.
    + intros _. split; reflexivity.
Qed.

Lemma C8_support_resistance_partition_witness :
  Forall (fun l => l < 100)
    (support (detect_support_resistance ranging_candles 1 2)) /\
  Forall (fun l => 100 < l)
    (resistance (detect_support_resistance ranging_candles 1 2)) /\
  support (detect_support_resistance ranging_candles 1 2) = [90] /\
  resistance (detect_support_resistance ranging_candles 1 2) = [110].
Proof.
  destruct (proj1 (C8_support_resistance_partition ranging_candles 1 2)
              100 eq_refl) as (Hs & Hr & _).
  split; [exact Hs|]. split; [exact Hr|]. split; reflexivity.
Defined.

(** * Further properties of the code *)

(** ** Ranges of the four sub-scores *)

(** Case analysis of one stage [E : stage = Ok v] of a score. *)
Ltac stage E :=
  repeat match type of E with
  | context [bind ?m _] => destruct m; simpl in E
  | context [if ?c then _ else _] =>
      let C := fresh "C" in destruct c eqn:C; simpl in E
  end;
  try discriminate E; injection E as E; rewrite <- E.

Ltac next_stage E :=
  match goal with
  | |- context [bind ?m _] => destruct m as [?v|] eqn:E; simpl; [|lra]
  end.

Lemma clamp01_abs_range (x b : Q) :
  - b <= x <= b -> b <= 1 -> 0 <= clamp01 (Qabs x) <= b.
Proof.
  intros H Hb. split; [apply clamp01_range|].
  apply clamp01_abs_le; [|assumption].
  apply Qabs_Qle_condition. exact H.
Qed.

(** The trend score lies between 0 and 0.45: 0.3 for the order of the two
    moving averages, multiplied by at most 1.5. *)
Lemma trend_score_range_aux (df : DataFrame) :
  0 <= _evaluate_trend df <= 0.45.
Proof.
  unfold _evaluate_trend, try_except.
  destruct (df_latest df) as [latest|]; simpl; [|lra].
  next_stage E1.
  assert (H1 : - 0.3 <= v <= 0.3) by (stage E1; lra).
  next_stage E2.
  assert (H2 : - 0.45 <= v0 <= 0.45) by (stage E2; lra).
  apply clamp01_abs_range; [exact H2|lra].
Qed.

(** The momentum score lies between 0 and 0.8: 0.3 for the RSI, 0.3 for
    the MACD and 0.2 for the stochastic oscillator. *)
Lemma momentum_score_range_aux (df : DataFrame) :
  0 <= _evaluate_momentum df <= 0.8.
Proof.
  unfold _evaluate_momentum, try_except.
  destruct (df_latest df) as [latest|]; simpl; [|lra].
  next_stage E1.
  assert (H1 : - 0.3 <= v <= 0.3) by (stage E1; lra).
  next_stage E2.
  assert (H2 : - 0.6 <= v0 <= 0.6) by (stage E2; lra).
  next_stage E3.
  assert (H3 : - 0.8 <= v1 <= 0.8) by (stage E3; lra).
  apply clamp01_abs_range; [exact H3|lra].
Qed.

Ltac stage_match E :=
  repeat match type of E with
  | context [bind ?m _] => destruct m; simpl in E
  | context [match ?c with _ => _ end] =>
      let C := fresh "C" in destruct c eqn:C; simpl in E
  end;
  try discriminate E; injection E as E; rewrite <- E.

(** The support/resistance score lies between 0 and 0.5. *)
Lemma support_resistance_score_range_aux (p : Q) (sr : SupportResistance) :
  0 <= _evaluate_support_resistance p sr <= 0.5.
Proof.
  unfold _evaluate_support_resistance, try_except.
  destruct (is_empty (support sr) && is_empty (resistance sr)); [lra|].
  next_stage E1.
  assert (H1 : 0 <= v <= 0.5) by (stage_match E1; lra).
  next_stage E2.
  assert (H2 : - 0.5 <= v0 <= 0.5) by (stage_match E2; lra).
  apply clamp01_abs_range; [exact H2|lra].
Qed.

(** The AI score never exceeds 1, is 0 when a key of the prediction is
    missing, and is not negative when the confidence is not. *)
Lemma ai_score_range_aux (ai : AIPrediction) :
  _evaluate_ai_signal ai <= 1 /\
  (confidence ai = None \/ probabilities ai = None ->
   _evaluate_ai_signal ai = 0) /\
  (forall c, confidence ai = Some c -> 0 <= c -> 0 <= _evaluate_ai_signal ai).
Proof.
  unfold _evaluate_ai_signal, try_except.
  split; [|split].
  - destruct (confidence ai) as [c|]; simpl; [|lra].
    destruct (probabilities ai) as [pr|]; simpl; [|lra].
    destruct (buy pr) as [b|]; simpl; [|lra].
    destruct (Qgtb b 0.7); simpl.
    + apply py_min_spec.
    + destruct (sell pr) as [s|]; simpl; [|lra]. apply py_min_spec.
  - intros [H|H].
    + rewrite H. reflexivity.
    + rewrite H. destruct (confidence ai); reflexivity.
  - intros c Hc Hpos. rewrite Hc. simpl.
    destruct (probabilities ai) as [pr|]; simpl; [|lra].
    destruct (buy pr) as [b|]; simpl; [|lra].
    destruct (Qgtb b 0.7); simpl.
    + unfold py_min. cmp_cases; lra.
    + destruct (sell pr) as [s|]; simpl; [|lra].
      destruct (Qgtb s 0.7); unfold py_min; cmp_cases; lra.
Qed.


(** ** What the fusion can reach *)

Lemma clamp01_le (x b : Q) : x <= b -> 0 <= b -> clamp01 x <= b.
Proof. intros H Hb. unfold clamp01, py_max, py_min. cmp_cases; lra. Qed.

(** Whatever the inputs, the fused score is between 0 and 0.7475
    (0.4 + 0.25 * 0.45 + 0.2 * 0.8 + 0.15 * 0.5). *)
Lemma fused_score_range_aux
    (ai : AIPrediction) (td : DataFrame) (p : Q) (sr : SupportResistance) :
  0 <= _calculate_overall_score (signal_metrics_of ai td p sr) <= 0.7475.
Proof.
  unfold _calculate_overall_score, try_except.
  split; [apply clamp01_range|].
  apply clamp01_le; [|lra].
  rewrite weighted_sum_eq. unfold signal_metrics_of. simpl.
  pose proof (proj1 (ai_score_range_aux ai)).
  pose proof (trend_score_range_aux td).
  pose proof (momentum_score_range_aux td).
  pose proof (support_resistance_score_range_aux p sr).
  lra.
Qed.

Lemma generate_signal_confidence
    (now : string) (ai : AIPrediction) (td : DataFrame) (pd : PriceData)
    (sr : SupportResistance) :
  sg_confidence (generate_signal now ai td pd sr) = 0 \/
  exists p, close pd = Some p /\
    sg_confidence (generate_signal now ai td pd sr) =
    _calculate_overall_score (signal_metrics_of ai td p sr).
Proof.
  destruct (close pd) as [p|] eqn:Hp.
  - rewrite (generate_signal_priced now ai td pd sr p Hp). cbv zeta.
    destruct (_determine_signal_type _); [left; reflexivity|..];
      right; exists p; split; reflexivity.
  - left. rewrite (generate_signal_unpriced now ai td pd sr Hp). reflexivity.
Qed.

(** Every signal [generate_signal] returns is NEUTRAL or BUY, with a
    confidence between 0 and 0.7475: the score never passes the 0.8 that
    STRONG_BUY needs. *)
Lemma generate_signal_neutral_or_buy_aux
    (now : string) (ai : AIPrediction) (td : DataFrame) (pd : PriceData)
    (sr : SupportResistance) :
  let s := generate_signal now ai td pd sr in
  (signal_type s = NEUTRAL \/ signal_type s = BUY) /\
  0 <= sg_confidence s <= 0.7475.
Proof.
  split.
  - destruct (generate_signal_type now ai td pd sr) as [H|(p & _ & H)];
      [left; exact H|].
    rewrite H.
    pose proof (fused_score_range_aux ai td p sr) as Hr.
    unfold _determine_signal_type, min_confidence, try_except.
    cmp_cases; auto; exfalso; lra.
  - destruct (generate_signal_confidence now ai td pd sr) as [H|(p & _ & H)];
      rewrite H; [lra|apply fused_score_range_aux].
Qed.


(** ** When the generator stays neutral *)

Lemma trend_no_candle (td : DataFrame) :
  rows td = [] -> _evaluate_trend td = 0 /\ _evaluate_momentum td = 0.
Proof.
  intro H. unfold _evaluate_trend, _evaluate_momentum, df_latest, iloc.
  rewrite H. split; reflexivity.
Qed.

Lemma sr_score_no_level (p : Q) (sr : SupportResistance) :
  support sr = [] -> resistance sr = [] ->
  _evaluate_support_resistance p sr = 0.
Proof.
  intros Hs Hr. unfold _evaluate_support_resistance. rewrite Hs, Hr.
  reflexivity.
Qed.

Lemma neutral_below_gate
    (now : string) (ai : AIPrediction) (td : DataFrame) (pd : PriceData)
    (sr : SupportResistance) :
  (forall p, close pd = Some p ->
     weighted_sum (signal_metrics_of ai td p sr) < 0.7) ->
  generate_signal now ai td pd sr = _create_neutral_signal now.
Proof.
  intro H. destruct (close pd) as [p|] eqn:Hp.
  - rewrite (generate_signal_priced now ai td pd sr p Hp). cbv zeta.
    assert (Hn : _determine_signal_type
                   (_calculate_overall_score (signal_metrics_of ai td p sr))
                 = NEUTRAL).
    { apply determine_neutral_iff.
      unfold _calculate_overall_score, try_except.
      specialize (H p eq_refl).
      unfold clamp01, py_max, py_min. cmp_cases; lra. }
    rewrite Hn. reflexivity.
  - apply generate_signal_unpriced. exact Hp.
Qed.

(** Without any support or resistance level the three other sub-scores
    cannot reach the threshold (0.4 + 0.1125 + 0.16 = 0.6725 < 0.7): the
    signal is the neutral record. *)
Lemma neutral_without_levels_aux
    (now : string) (ai : AIPrediction) (td : DataFrame) (pd : PriceData)
    (sr : SupportResistance)
    (Hs : support sr = []) (Hr : resistance sr = []) :
  generate_signal now ai td pd sr = _create_neutral_signal now.
Proof.
  apply neutral_below_gate. intros p _.
  rewrite weighted_sum_eq. unfold signal_metrics_of. simpl.
  rewrite (sr_score_no_level p sr Hs Hr).
  pose proof (proj1 (ai_score_range_aux ai)).
  pose proof (trend_score_range_aux td).
  pose proof (momentum_score_range_aux td).
  lra.
Qed.


(** On technical data without a row the trend and momentum scores are 0
    and the signal is the neutral record. *)
Lemma neutral_without_candles_aux
    (now : string) (ai : AIPrediction) (td : DataFrame) (pd : PriceData)
    (sr : SupportResistance)
    (Hrows : rows td = []) :
  generate_signal now ai td pd sr = _create_neutral_signal now.
Proof.
  apply neutral_below_gate. intros p _.
  rewrite weighted_sum_eq. unfold signal_metrics_of. simpl.
  destruct (trend_no_candle td Hrows) as [-> ->].
  pose proof (proj1 (ai_score_range_aux ai)).
  pose proof (support_resistance_score_range_aux p sr).
  lra.
Qed.


(** ** Nearest levels *)

Lemma fold_py_max_spec (l : list Q) (x : Q) :
  let m := fold_left py_max l x in
  (m = x \/ In m l) /\ x <= m /\ (forall y, In y l -> y <= m).
Proof.
  revert x. induction l as [|a t IH]; intro x; simpl.
  - split; [left; reflexivity|]. split; [lra|intros y []].
  - destruct (IH (py_max x a)) as (Hin & Hle & Hall).
    destruct (py_max_spec x a) as (Hx & Ha & _).
    split; [|split].
    + destruct Hin as [E|Hin]; [|right; right; exact Hin].
      rewrite E. unfold py_max. destruct (Qgtb a x); auto.
    + lra.
    + intros y [<-|Hy]; [lra|apply Hall; exact Hy].
Qed.

Lemma fold_py_min_spec (l : list Q) (x : Q) :
  let m := fold_left py_min l x in
  (m = x \/ In m l) /\ m <= x /\ (forall y, In y l -> m <= y).
Proof.
  revert x. induction l as [|a t IH]; intro x; simpl.
  - split; [left; reflexivity|]. split; [lra|intros y []].
  - destruct (IH (py_min x a)) as (Hin & Hle & Hall).
    destruct (py_min_spec x a) as (Hx & Ha & _).
    split; [|split].
    + destruct Hin as [E|Hin]; [|right; right; exact Hin].
      rewrite E. unfold py_min. destruct (Qltb a x); auto.
    + lra.
    + intros y [<-|Hy]; [lra|apply Hall; exact Hy].
Qed.

(** The nearest support is the greatest level strictly below the price,
    and [None] exactly when no level is below the price; the nearest
    resistance is the least level strictly above it, likewise. *)
Lemma nearest_level_spec_aux (levels : list Q) (p : Q) :
  (forall s, nearest_below levels p = Some s ->
     In s levels /\ s < p /\ (forall x, In x levels -> x < p -> x <= s)) /\
  (nearest_below levels p = None <-> (forall x, In x levels -> ~ x < p)) /\
  (forall r, nearest_above levels p = Some r ->
     In r levels /\ p < r /\ (forall x, In x levels -> p < x -> r <= x)) /\
  (nearest_above levels p = None <-> (forall x, In x levels -> ~ p < x)).
Proof.
  unfold nearest_below, nearest_above, py_max_list, py_min_list.
  split; [|split; [|split]].
  - intros s H.
    destruct (filter _ levels) as [|a t] eqn:Ef; [discriminate|].
    injection H as <-.
    destruct (fold_py_max_spec t a) as (Hin & Hle & Hall).
    assert (Hm : In (fold_left py_max t a) (a :: t))
      by (destruct Hin as [->|Hin]; [left; reflexivity|right; exact Hin]).
    rewrite <- Ef in Hm. apply filter_In in Hm. destruct Hm as [Hm Hlt].
    apply Qltb_lt in Hlt. split; [exact Hm|]. split; [exact Hlt|].
    intros x Hx Hxp.
    assert (Hf : In x (a :: t))
      by (rewrite <- Ef; apply filter_In; split;
          [exact Hx|apply Qltb_lt; exact Hxp]).
    destruct Hf as [<-|Hf]; [exact Hle|apply Hall; exact Hf].
  - split.
    + intros H x Hx Hxp.
      destruct (filter _ levels) as [|a t] eqn:Ef; [|discriminate].
      assert (Hf : In x []); [|destruct Hf].
      rewrite <- Ef. apply filter_In. split; [exact Hx|].
      apply Qltb_lt. exact Hxp.
    + intro H. destruct (filter _ levels) as [|a t] eqn:Ef; [reflexivity|].
      exfalso. assert (Ha : In a (a :: t)) by (left; reflexivity).
      rewrite <- Ef in Ha. apply filter_In in Ha. destruct Ha as [Ha Hlt].
      apply Qltb_lt in Hlt. apply (H a Ha Hlt).
  - intros r H.
    destruct (filter _ levels) as [|a t] eqn:Ef; [discriminate|].
    injection H as <-.
    destruct (fold_py_min_spec t a) as (Hin & Hle & Hall).
    assert (Hm : In (fold_left py_min t a) (a :: t))
      by (destruct Hin as [->|Hin]; [left; reflexivity|right; exact Hin]).
    rewrite <- Ef in Hm. apply filter_In in Hm. destruct Hm as [Hm Hlt].
    apply Qgtb_gt in Hlt. split; [exact Hm|]. split; [exact Hlt|].
    intros x Hx Hxp.
    assert (Hf : In x (a :: t))
      by (rewrite <- Ef; apply filter_In; split;
          [exact Hx|apply Qgtb_gt; exact Hxp]).
    destruct Hf as [<-|Hf]; [exact Hle|apply Hall; exact Hf].
  - split.
    + intros H x Hx Hxp.
      destruct (filter _ levels) as [|a t] eqn:Ef; [|discriminate].
      assert (Hf : In x []); [|destruct Hf].
      rewrite <- Ef. apply filter_In. split; [exact Hx|].
      apply Qgtb_gt. exact Hxp.
    + intro H. destruct (filter _ levels) as [|a t] eqn:Ef; [reflexivity|].
      exfalso. assert (Ha : In a (a :: t)) by (left; reflexivity).
      rewrite <- Ef in Ha. apply filter_In in Ha. destruct Ha as [Ha Hlt].
      apply Qgtb_gt in Hlt. apply (H a Ha Hlt).
Qed.



(** ** Levels of a BUY signal *)

Lemma df_latest_some (td : DataFrame) :
  rows td <> [] -> exists latest, df_latest td = Ok latest.
Proof.
  intro H. unfold df_latest.
  destruct (iloc_in_range (rows td) (-1)) as [r Hr].
  - destruct (rows td); [contradiction|]. simpl List.length. lia.
  - rewrite Hr. simpl. eexists. reflexivity.
Qed.

Lemma or_else_cases (o : option Q) (d : Q) :
  (exists v, o = Some v /\ ~ v == 0 /\ or_else o d = v) \/ or_else o d = d.
Proof.
  destruct o as [v|]; [|right; reflexivity].
  unfold or_else, truthy. destruct (Qeq_bool v 0) eqn:E; simpl.
  - right. reflexivity.
  - left. exists v. repeat split.
    intro H. apply Qeq_bool_iff in H. congruence.
Qed.

Lemma trade_levels_long_eq
    (t : SignalType) (p : Q) (td : DataFrame) (sr : SupportResistance)
    (latest : Series) :
  is_long t = true ->
  df_latest td = Ok latest ->
  _calculate_trade_levels t p td sr =
  let atr := atr_of latest p in
  let sl := or_else (nearest_below (support sr) p) (p - 2 * atr) in
  let tp := p + (p - sl) * the_risk_reward_ratio in
  let risk := if truthy (Some sl) then Qabs (p - sl) else atr in
  let reward :=
    if truthy (Some tp) then Qabs (p - tp) else risk * the_risk_reward_ratio in
  mkTradeLevels p (Some sl) (Some tp)
    (if Qgtb risk 0 then reward / risk else the_risk_reward_ratio).
Proof.
  intros Ht Hl. unfold _calculate_trade_levels. rewrite Hl.
  cbn [bind try_except]. rewrite Ht. reflexivity.
Qed.

(** The reported ratio of a long position with a non-zero stop below the
    entry is the target ratio. *)
Lemma long_ratio_is_target (t : SignalType) (p : Q) (td : DataFrame)
    (sr : SupportResistance) (latest : Series) (sl : Q) :
  is_long t = true ->
  df_latest td = Ok latest ->
  lv_stop_loss (_calculate_trade_levels t p td sr) = Some sl ->
  sl < p -> ~ sl == 0 ->
  lv_risk_reward_ratio (_calculate_trade_levels t p td sr) == 2.
Proof.
  intros Ht Hl Hsl Hlt Hnz.
  rewrite (trade_levels_long_eq t p td sr latest Ht Hl) in *.
  cbv zeta in *. cbn [lv_stop_loss lv_risk_reward_ratio] in *.
  injection Hsl as Hsl. rewrite Hsl.
  assert (Htr : truthy (Some sl) = true).
  { unfold truthy. apply negb_true_iff.
    destruct (Qeq_bool sl 0) eqn:E; [|reflexivity].
    apply Qeq_bool_iff in E. contradiction. }
  rewrite Htr.
  assert (Hrisk : Qabs (p - sl) == p - sl) by (apply Qabs_pos; lra).
  assert (Hg : Qgtb (Qabs (p - sl)) 0 = true)
    by (apply Qgtb_gt; rewrite Hrisk; lra).
  rewrite Hg. unfold the_risk_reward_ratio.
  destruct (truthy (Some (p + (p - sl) * 2))).
  - assert (Hrew : Qabs (p - (p + (p - sl) * 2)) == 2 * (p - sl)).
    { rewrite Qabs_neg; [ring|lra]. }
    rewrite Hrew, Hrisk. field. lra.
  - rewrite Hrisk. field. lra.
Qed.



(** ** The signal worker's price snapshot *)

Lemma symbol_info_has_no_close
    (terminal : string -> option MT5SymbolInfo) (symbol : string) :
  close (price_data_of (get_symbol_info terminal symbol)) = None.
Proof.
  unfold price_data_of, get_symbol_info.
  destruct (terminal symbol); reflexivity.
Qed.

(** X12: the signal worker passes the dictionary of [get_symbol_info] as
    [price_data]; that dictionary has no key ['close'], whether the symbol
    is known or not, so the signal it gets back is always the neutral
    record. *)
Theorem worker_signal_is_neutral
    (terminal : string -> option MT5SymbolInfo) (symbol : string)
    (now : string) (ai : AIPrediction) (td : DataFrame)
    (sr : SupportResistance) :
  generate_signal now ai td
    (price_data_of (get_symbol_info terminal symbol)) sr
  = _create_neutral_signal now.
Proof.
  apply generate_signal_unpriced. apply symbol_info_has_no_close.
Qed.

(** ** Position size *)

(** X13: the size is 0.0 or at least the symbol's minimum lot, and then at most
    its maximum lot when the minimum does not exceed the maximum. *)
Theorem position_size_bounds
    (symbol_info : string -> Dict) (risk_amount : Q)
    (symbol : option string) (s : Signal) :
  let r := calculate_position_size symbol_info risk_amount symbol s in
  r = 0 \/
  exists sym min_lot max_lot,
    symbol = Some sym /\
    dict_num "min_lot" (symbol_info sym) = Some min_lot /\
    dict_num "max_lot" (symbol_info sym) = Some max_lot /\
    min_lot <= r /\
    (min_lot <= max_lot -> r <= max_lot).
Proof.
  unfold calculate_position_size.
  destruct (negb (truthy (stop_loss s))); [left; reflexivity|].
  destruct (entry_price s) as [price|]; [|left; reflexivity].
  destruct (stop_loss s) as [stop|]; [|left; reflexivity].
  destruct symbol as [sym|]; [|left; reflexivity].
  cbn [option_bind].
  destruct (dict_num "point" (symbol_info sym)) as [pip|];
    [|left; reflexivity].
  cbn [option_bind].
  destruct (safe_div (Qabs (price - stop)) pip) as [sl_pips|];
    [|left; reflexivity].
  cbn [option_bind].
  destruct (Qeq_bool sl_pips 0); [left; reflexivity|].
  destruct (safe_div risk_amount sl_pips) as [size|]; [|left; reflexivity].
  cbn [option_bind].
  destruct (dict_num "min_lot" (symbol_info sym)) as [min_lot|] eqn:Emin;
    [|left; reflexivity].
  cbn [option_bind].
  destruct (dict_num "lot_step" (symbol_info sym)) as [lot_step|];
    [|left; reflexivity].
  cbn [option_bind].
  destruct (safe_div size lot_step) as [steps|]; [|left; reflexivity].
  cbn [option_bind].
  destruct (dict_num "max_lot" (symbol_info sym)) as [max_lot|] eqn:Emax;
    [|left; reflexivity].
  cbn [option_bind].
  right. exists sym, min_lot, max_lot.
  split; [reflexivity|]. split; [exact Emin|]. split; [exact Emax|].
  unfold py_max, py_min. split; [|intro Hle]; cmp_cases; lra.
Qed.

Lemma position_size_bounds_witness :
  0.01 <= calculate_position_size (get_symbol_info one_symbol_terminal) 100
            (Some "EURUSD"%string) eurusd_buy <= 100.
Proof.
  destruct (position_size_bounds (get_symbol_info one_symbol_terminal) 100
              (Some "EURUSD"%string) eurusd_buy)
    as [H|(sym & mn & mx & Hs & Hmin & Hmax & Hlo & Hhi)].
  - vm_compute in H. discriminate H.
  - injection Hs as <-.
    vm_compute in Hmin. injection Hmin as <-.
    vm_compute in Hmax. injection Hmax as <-.
    split; [exact Hlo|apply Hhi; lra].
Defined.

(** X14: the size is 0.0 when the signal has no ['symbol'] key, when its stop is
    [None] or 0.0, when its entry is [None], when entry and stop coincide,
    and when the symbol is unknown to the terminal. *)
Theorem position_size_zero
    (symbol_info : string -> Dict) (risk_amount : Q)
    (symbol : option string) (s : Signal) :
  symbol = None \/
  truthy (stop_loss s) = false \/
  entry_price s = None \/
  (exists p sl, entry_price s = Some p /\ stop_loss s = Some sl /\ p == sl) \/
  (exists sym, symbol = Some sym /\ symbol_info sym = []) ->
  calculate_position_size symbol_info risk_amount symbol s = 0.
Proof.
  unfold calculate_position_size.
  intros [H|[H|[H|[(p & sl & Hp & Hsl & E)|(sym & Hs & Hi)]]]].
  - subst symbol. destruct (negb _); [reflexivity|].
    destruct (entry_price s); [|reflexivity].
    destruct (stop_loss s); reflexivity.
  - rewrite H. reflexivity.
  - rewrite H. destruct (negb _); reflexivity.
  - rewrite Hp, Hsl. destruct (negb _); [reflexivity|].
    cbn [option_bind]. destruct symbol as [sym|]; [|reflexivity].
    cbn [option_bind].
    destruct (dict_num "point" (symbol_info sym)) as [pip|]; [|reflexivity].
    cbn [option_bind]. unfold safe_div at 1.
    destruct (Qeq_bool pip 0); [reflexivity|]. cbn [option_bind].
    assert (Hz : Qeq_bool (Qabs (p - sl) / pip) 0 = true).
    { apply Qeq_bool_iff.
      assert (Ha : Qabs (p - sl) == 0).
      { assert (Hd : p - sl == 0) by lra. rewrite Hd. reflexivity. }
      rewrite Ha. unfold Qdiv. ring. }
    rewrite Hz. reflexivity.
  - subst symbol. destruct (negb _); [reflexivity|].
    destruct (entry_price s); [|reflexivity].
    destruct (stop_loss s); [|reflexivity].
    cbn [option_bind]. rewrite Hi. reflexivity.
Qed.

Lemma position_size_zero_witness :
  calculate_position_size (get_symbol_info one_symbol_terminal) 100 None
    (generate_signal "t" buy_prediction bullish_frame (mkPriceData (Some 1))
       zero_support_levels) = 0.
Proof.
  apply position_size_zero. left. reflexivity.
Defined.

(** ** Data preparation and prediction: further cases *)

(** X15: a required feature column that the series lacks: [ValueError], and the
    object is left as it was (the scaler is not refitted). *)
Theorem prepare_data_missing_feature {Model} (w : World Model)
    (df : DataFrame) (c : string)
    (Hc : In c (feature_columns (self w)))
    (Hmiss : has_column df c = false) :
  prepare_data df w = (Raise ValueError, w).
Proof.
  rewrite prepare_data_unfold. cbv zeta.
  destruct (is_empty _) eqn:E; [|reflexivity].
  pose proof (proj1 (missing_features_empty df (feature_columns (self w))) E)
    as E'.
  rewrite (E' c Hc) in Hmiss. discriminate Hmiss.
Qed.

Lemma prepare_data_missing_feature_witness :
  prepare_data four_candles (plain_world ["close"; "rsi"]%string 1) =
  (Raise ValueError, plain_world ["close"; "rsi"]%string 1).
Proof.
  apply (prepare_data_missing_feature _ four_candles "rsi"%string).
  - right. left. reflexivity.
  - reflexivity.
Defined.

Lemma prepare_data_keeps_model {Model} (w w' : World Model) (df : DataFrame)
    (r : Result (list (list (list Q)) * list (list Z))) :
  prepare_data df w = (r, w') ->
  model (self w') = model (self w) /\
  model_version (self w') = model_version (self w) /\
  feature_columns (self w') = feature_columns (self w) /\
  sequence_length (self w') = sequence_length (self w) /\
  fs w' = fs w.
Proof.
  rewrite prepare_data_unfold. cbv zeta.
  destruct (negb _); [intro H; injection H as _ <-; repeat split|].
  destruct (fit_transform _) as [[scaled|e] sc];
    [|intro H; injection H as _ <-; repeat split].
  destruct (mapM _ _); intro H; injection H as _ <-; repeat split.
Qed.

Lemma max3 (b s h : Q) :
  let c := fold_left py_max [s; h] b in
  let i := argmax_from b 0 1 [s; h] in
  b <= c /\ s <= c /\ h <= c /\
  ((i = 0%nat /\ c = b) \/ (i = 1%nat /\ c = s) \/ (i = 2%nat /\ c = h)).
Proof.
  simpl. unfold py_max.
  destruct (Qgtb s b) eqn:E1.
  - destruct (Qgtb h s) eqn:E2.
    + apply Qgtb_gt in E1, E2. repeat split; try lra. auto.
    + apply Qgtb_gt in E1. apply Qgtb_le in E2. repeat split; try lra. auto.
  - destruct (Qgtb h b) eqn:E2.
    + apply Qgtb_le in E1. apply Qgtb_gt in E2. repeat split; try lra. auto.
    + apply Qgtb_le in E1, E2. repeat split; try lra. auto.
Qed.

(** X16: when data preparation yields at least one window and the network
    answers with three probabilities for the last one, [predict] returns
    those probabilities, as confidence the largest of them, and as signal a
    class that has it (BUY, SELL, HOLD in that order); nothing of the
    object changes but the scaler. *)
Theorem predict_reports_best_class {Model}
    (keras_predict : Model -> list (list (list Q)) -> Result (list (list Q)))
    (now : string) (df : DataFrame) (w w1 : World Model)
    (X : list (list (list Q))) (y : list (list Z))
    (b s h : Q) (more : list (list Q))
    (Hprep : prepare_data df w = (Ok (X, y), w1))
    (HX : X <> [])
    (Hnet : keras_predict (model (self w)) (last_only X) = Ok ([b; s; h] :: more)) :
  exists sig c,
    predict keras_predict now df w =
      (Ok (mkAIPrediction (Some sig) (Some c)
             (Some (mkProbabilities (Some b) (Some s) (Some h))) (Some now)),
       w1) /\
    b <= c /\ s <= c /\ h <= c /\
    c = match sig with AI_BUY => b | AI_SELL => s | AI_HOLD => h end.
Proof.
  destruct (prepare_data_keeps_model w w1 df _ Hprep) as (Hm & _).
  unfold predict, m_try_except, predict_body.
  unfold mbind at 1. rewrite Hprep. cbn [fst].
  destruct X as [|x0 X']; [contradiction|].
  cbn [List.length Nat.eqb].
  unfold mbind at 1, get_self. unfold mbind at 1, lift.
  rewrite Hm, Hnet.
  unfold mbind at 1. cbn [iloc List.length].
  change (iloc ([b; s; h] :: more) 0) with (Ok (A := list Q) [b; s; h]).
  cbv beta iota.
  destruct (max3 b s h) as (Hb & Hs & Hh & Hi).
  cbv zeta in Hi, Hb, Hs, Hh.
  unfold mbind at 1. cbn [py_max_list].
  unfold mbind at 1. cbn [argmax].
  destruct Hi as [[Hi Hc]|[[Hi Hc]|[Hi Hc]]]; rewrite Hi.
  - exists AI_BUY, (fold_left py_max [s; h] b). split; [reflexivity|].
    repeat split; assumption.
  - exists AI_SELL, (fold_left py_max [s; h] b). split; [reflexivity|].
    repeat split; assumption.
  - exists AI_HOLD, (fold_left py_max [s; h] b). split; [reflexivity|].
    repeat split; assumption.
Qed.

Lemma predict_reports_best_class_witness :
  exists sig c w1,
    predict (fun (_ : unit) (_ : list (list (list Q))) => Ok [[0.2; 0.7; 0.1]])
      "t" four_candles (plain_world ["close"%string] 1) =
      (Ok (mkAIPrediction (Some sig) (Some c)
             (Some (mkProbabilities (Some 0.2) (Some 0.7) (Some 0.1)))
             (Some "t"%string)),
       w1) /\
    sig = AI_SELL /\ c = 0.7.
Proof.
  assert (Hp : exists X y w1,
             prepare_data four_candles (plain_world ["close"%string] 1) =
               (Ok (X, y), w1) /\ X <> []).
  { vm_compute. do 3 eexists. split; [reflexivity|discriminate]. }
  destruct Hp as (X & y & w1 & Hp & HX).
  destruct (predict_reports_best_class
              (fun (_ : unit) (_ : list (list (list Q))) => Ok [[0.2; 0.7; 0.1]])
              "t" four_candles (plain_world ["close"%string] 1) w1 X y
              0.2 0.7 0.1 [] Hp HX eq_refl)
    as (sig & c & H & Hb & Hs & Hh & Hc).
  exists sig, c, w1. split; [exact H|].
  destruct sig; subst c.
  - exfalso. lra.
  - split; reflexivity.
  - exfalso. lra.
Defined.

(** ** Saving, then loading *)

(** X17: with a fitted scaler [save_model] succeeds and moves to the next
    version; from then on, whatever the object has become, loading that
    version succeeds and brings back the saved network, the saved scale and
    the version number. *)
Theorem save_then_load {Model} (w : World Model) (a : list Q)
    (Hfit : scale_ (scaler (self w)) = Some a) :
  exists w1,
    save_model w = (Ok tt, w1) /\
    model_version (self w1) = (model_version (self w) + 1)%Z /\
    model (self w1) = model (self w) /\
    forall w2, fs w2 = fs w1 ->
    exists w3,
      load_specific_version (model_version (self w) + 1) w2 = (Ok tt, w3) /\
      model (self w3) = model (self w) /\
      scale_ (scaler (self w3)) = Some a /\
      model_version (self w3) = (model_version (self w) + 1)%Z /\
      fs w3 = fs w1.
Proof.
  eexists. split.
  - unfold save_model, mbind, get_self, put_self, get_fs, put_fs, lift.
    cbn [self fs set_model_version scaler model]. rewrite Hfit. reflexivity.
  - cbn [self fs model_version model set_model_version].
    split; [reflexivity|]. split; [reflexivity|].
    intros w2 Hfs.
    rewrite (load_complete_version w2 (model_version (self w) + 1)
               (model (self w)) a).
    + eexists. split; [reflexivity|]. cbn [self fs model scaler scale_
        model_version]. repeat split. exact Hfs.
    + rewrite Hfs. cbn [fs model_file set_scaler_file set_model_file].
      rewrite Z.eqb_refl. reflexivity.
    + rewrite Hfs. cbn [fs scaler_file set_scaler_file].
      rewrite Z.eqb_refl. reflexivity.
Qed.

Lemma save_then_load_witness :
  exists w1 w3,
    save_model trained_world = (Ok tt, w1) /\
    load_specific_version 4
      (mkWorld (mkAIModel 9%nat unfitted ["close"; "rsi"]%string 10 1) (fs w1))
      = (Ok tt, w3) /\
    model (self w3) = 5%nat /\
    scale_ (scaler (self w3)) = Some [0.25; 2] /\
    model_version (self w3) = 4%Z.
Proof.
  destruct (save_then_load trained_world [0.25; 2] eq_refl)
    as (w1 & Hs & _ & _ & Hload).
  destruct (Hload (mkWorld (mkAIModel 9%nat unfitted ["close"; "rsi"]%string
                             10 1) (fs w1)) eq_refl)
    as (w3 & Hl & Hm & Hsc & Hv & _).
  exists w1, w3. repeat split; assumption.
Defined.

(** X18: with a scaler that was never fitted [save_model] raises AttributeError
    after it has advanced the version counter and written the model file:
    the failed save leaves a version with no scaler file. *)
Theorem save_unfitted {Model} (w : World Model)
    (Hunfit : scale_ (scaler (self w)) = None) :
  exists w1,
    save_model w = (Raise AttributeError, w1) /\
    model_version (self w1) = (model_version (self w) + 1)%Z /\
    model_file (fs w1) (model_version (self w) + 1) =
      Some (Readable (model (self w))) /\
    scaler_file (fs w1) (model_version (self w) + 1) =
      scaler_file (fs w) (model_version (self w) + 1).
Proof.
  eexists. split.
  - unfold save_model, mbind, get_self, put_self, get_fs, put_fs, lift.
    cbn [self fs set_model_version scaler model]. rewrite Hunfit.
    reflexivity.
  - cbn [self fs model_version set_model_version model_file scaler_file
         set_model_file]. rewrite Z.eqb_refl. repeat split.
Qed.

Lemma save_unfitted_witness :
  exists w1,
    save_model fresh_world = (Raise AttributeError, w1) /\
    model_version (self w1) = 1%Z /\
    model_file (fs w1) 1 = Some (Readable 1%nat) /\
    scaler_file (fs w1) 1 = None.
Proof.
  destruct (save_unfitted fresh_world eq_refl) as (w1 & H1 & H2 & H3 & H4).
  exists w1. repeat split; assumption.
Defined.

(** X19: loading a version whose model file is absent or damaged raises
    (FileNotFoundError, OSError) before any assignment: the object and the
    files are exactly as before.  Loading a version whose two files are
    readable replaces the network, the scale and the version, and nothing
    else. *)
Theorem load_version_outcomes {Model} (w : World Model) (v : Z) :
  (model_file (fs w) v = None ->
   load_specific_version v w = (Raise FileNotFoundError, w)) /\
  (model_file (fs w) v = Some Damaged ->
   load_specific_version v w = (Raise OSError, w)) /\
  (forall m a,
     model_file (fs w) v = Some (Readable m) ->
     scaler_file (fs w) v = Some (Readable a) ->
     load_specific_version v w =
     (Ok tt,
      mkWorld (mkAIModel m (mkMinMaxScaler (Some a) (min_ (scaler (self w))))
                 (feature_columns (self w)) (sequence_length (self w)) v)
        (fs w))).
Proof.
  split; [apply load_absent_version|].
  split; [apply load_damaged_model|].
  intros m a. apply load_complete_version.
Qed.

Lemma load_version_outcomes_witness :
  load_specific_version 2 trained_world =
  (Raise FileNotFoundError, trained_world).
Proof.
  apply (proj1 (load_version_outcomes trained_world 2)). reflexivity.
Defined.

(** ** Training and online update *)

Lemma prepare_data_short {Model} (w w1 : World Model) (df : DataFrame)
    (X : list (list (list Q))) (y : list (list Z)) :
  prepare_data df w = (Ok (X, y), w1) ->
  (len df < sequence_length (self w) + 1)%nat ->
  X = [] /\ y = [].
Proof.
  rewrite prepare_data_unfold. cbv zeta.
  destruct (negb _); [discriminate|].
  destruct (fit_transform _) as [[scaled|e] sc] eqn:E; [|discriminate].
  apply fit_transform_ok in E. rewrite feature_matrix_length in E.
  intros H Hn.
  replace (List.length scaled - sequence_length (self w))%nat with 0%nat in H
    by lia.
  simpl in H. injection H as <- <- _. split; reflexivity.
Qed.

Lemma save_model_effect {Model} (w w' : World Model) (r : Result unit) :
  save_model w = (r, w') ->
  model_version (self w') = (model_version (self w) + 1)%Z /\
  model (self w') = model (self w).
Proof.
  unfold save_model, mbind, get_self, put_self, get_fs, put_fs, lift.
  cbn [self fs set_model_version scaler model].
  destruct (scale_ (scaler (self w))); intro H; injection H as _ <-;
    split; reflexivity.
Qed.

Section TrainingFacts.

Variable Model : Type.
Variable keras_fit :
  Model -> list (list (list Q)) -> list (list Z) -> Z -> Z ->
  option (list (list (list Q)) * list (list Z)) -> Model * Result History.
Variable training : TrainingConfig.

Lemma online_update_body_effect (df : DataFrame) (w w' : World Model)
    (r : Result (option Q * option Q)) :
  online_update_body keras_fit training df w = (r, w') ->
  model_version (self w') = model_version (self w) /\
  fs w' = fs w /\
  ((len df < sequence_length (self w) + 1)%nat ->
   (exists e, r = Raise e) /\ model (self w') = model (self w)).
Proof.
  unfold online_update_body. unfold mbind at 1.
  destruct (prepare_data df w) as [[[X y]|e] w1] eqn:Hp.
  - destruct (prepare_data_keeps_model w w1 df _ Hp)
      as (Hm & Hv & _ & _ & Hfs).
    cbn [fst snd].
    destruct (Nat.eqb (List.length X) 0) eqn:E.
    + unfold raise. intro H. injection H as <- <-.
      split; [exact Hv|]. split; [exact Hfs|].
      intros _. split; [eexists; reflexivity|exact Hm].
    + unfold mbind, get_self, put_self, lift.
      destruct (keras_fit _ _ _ _ _ _) as [m' [h|e]]; cbn [fst snd].
      * destruct (iloc (h_loss h) (-1)); [|intro H; injection H as <- <-].
        -- destruct (iloc (h_accuracy h) (-1)); intro H; injection H as <- <-;
             (split; [exact Hv|]; split; [exact Hfs|]; intro Hn;
              destruct (prepare_data_short w w1 df X y Hp Hn) as [-> _];
              discriminate E).
        -- split; [exact Hv|]. split; [exact Hfs|]. intro Hn.
           destruct (prepare_data_short w w1 df X y Hp Hn) as [-> _].
           discriminate E.
      * intro H. injection H as <- <-.
        split; [exact Hv|]. split; [exact Hfs|]. intro Hn.
        destruct (prepare_data_short w w1 df X y Hp Hn) as [-> _].
        discriminate E.
  - destruct (prepare_data_keeps_model w w1 df _ Hp)
      as (Hm & Hv & _ & _ & Hfs).
    intro H. injection H as <- <-.
    split; [exact Hv|]. split; [exact Hfs|].
    intros _. split; [eexists; reflexivity|exact Hm].
Qed.

(** X20: [online_update] returns for every series and every behaviour of the
    fit, never an exception; it leaves the version counter and the files as
    they were; on a series shorter than sequence_length + 1 it returns
    [None] for both loss and accuracy and the network is untouched. *)
Theorem online_update_never_raises (df : DataFrame) (w : World Model) :
  exists r w',
    online_update keras_fit training df w = (Ok r, w') /\
    model_version (self w') = model_version (self w) /\
    fs w' = fs w /\
    ((len df < sequence_length (self w) + 1)%nat ->
     r = (None, None) /\ model (self w') = model (self w)).
Proof.
  unfold online_update, m_try_except, ret.
  destruct (online_update_body keras_fit training df w) as [[r|e] w'] eqn:E;
    destruct (online_update_body_effect df w w' _ E) as (Hv & Hfs & Hshort).
  - exists r, w'. split; [reflexivity|]. split; [exact Hv|].
    split; [exact Hfs|]. intro Hn.
    destruct (Hshort Hn) as [[e He] _]. discriminate He.
  - exists (None, None), w'. split; [reflexivity|]. split; [exact Hv|].
    split; [exact Hfs|]. intro Hn. split; [reflexivity|].
    apply (Hshort Hn).
Qed.

(** X21: [train] on a series shorter than sequence_length + 1 raises and
    leaves the network, the version counter and the files as they were,
    whether saving was asked for or not. *)
Theorem train_short_series (df : DataFrame) (save : bool) (w : World Model)
    (Hn : (len df < sequence_length (self w) + 1)%nat) :
  exists e w',
    train keras_fit training df save w = (Raise e, w') /\
    model (self w') = model (self w) /\
    model_version (self w') = model_version (self w) /\
    fs w' = fs w.
Proof.
  unfold train. unfold mbind at 1.
  destruct (prepare_data df w) as [[[X y]|e] w1] eqn:Hp;
    destruct (prepare_data_keeps_model w w1 df _ Hp)
      as (Hm & Hv & _ & _ & Hfs).
  - destruct (prepare_data_short w w1 df X y Hp Hn) as [-> ->].
    cbn [fst snd List.length Nat.eqb]. unfold raise.
    exists ValueError, w1. repeat split; assumption.
  - exists e, w1. repeat split; assumption.
Qed.

(** X22: a [train] that returns metrics has advanced the version counter by
    exactly one when saving was asked for and not at all otherwise, in
    which case it has not touched the files either. *)
Theorem train_version (df : DataFrame) (save : bool) (w w' : World Model)
    (m : TrainMetrics)
    (Hok : train keras_fit training df save w = (Ok m, w')) :
  model_version (self w') =
    (model_version (self w) + (if save then 1 else 0))%Z /\
  (save = false -> fs w' = fs w).
Proof.
  revert Hok. unfold train. unfold mbind at 1.
  destruct (prepare_data df w) as [[[X y]|e] w1] eqn:Hp; [|discriminate].
  destruct (prepare_data_keeps_model w w1 df _ Hp)
    as (Hm & Hv & _ & _ & Hfs).
  cbn [fst snd].
  destruct (Nat.eqb (List.length X) 0); [discriminate|].
  unfold mbind at 1, get_self. unfold mbind at 1, put_self.
  unfold mbind at 1, lift.
  destruct (keras_fit _ _ _ _ _ _) as [m' [h|e]]; cbn [fst snd];
    [|discriminate].
  unfold mbind at 1.
  set (w2 := mkWorld (set_model Model (self w1) m') (fs w1)).
  destruct save.
  - destruct (save_model w2) as [[[]|e] w3] eqn:Hs; [|discriminate].
    destruct (save_model_effect w2 w3 _ Hs) as (Hv3 & _).
    unfold mbind, lift.
    destruct (iloc (h_loss h) (-1)); [|discriminate].
    destruct (iloc (h_accuracy h) (-1)); [|discriminate].
    destruct (bind (dict_get (h_val_loss h)) _); [|discriminate].
    destruct (bind (dict_get (h_val_accuracy h)) _); [|discriminate].
    unfold ret. intro H. injection H as _ <-.
    split; [|discriminate].
    rewrite Hv3. unfold w2. cbn [self model_version set_model].
    rewrite Hv. reflexivity.
  - unfold ret at 1. unfold mbind, lift.
    destruct (iloc (h_loss h) (-1)); [|discriminate].
    destruct (iloc (h_accuracy h) (-1)); [|discriminate].
    destruct (bind (dict_get (h_val_loss h)) _); [|discriminate].
    destruct (bind (dict_get (h_val_accuracy h)) _); [|discriminate].
    unfold ret. intro H. injection H as _ <-.
    unfold w2. cbn [self fs model_version set_model].
    split; [rewrite Hv; lia|]. intros _. exact Hfs.
Qed.

End TrainingFacts.

Lemma train_short_series_witness :
  exists e w',
    train counting_fit default_training (close_frame [1]) true fresh_world =
      (Raise e, w') /\
    model (self w') = model (self fresh_world) /\
    model_version (self w') = model_version (self fresh_world) /\
    fs w' = fs fresh_world.
Proof.
  apply (train_short_series nat counting_fit default_training
           (close_frame [1]) true fresh_world).
  vm_compute. lia.
Defined.

Lemma train_version_witness :
  exists m w',
    train counting_fit default_training four_candles true fresh_world =
      (Ok m, w') /\
    model_version (self w') = 1%Z.
Proof.
  assert (H : exists m w',
            train counting_fit default_training four_candles true fresh_world
            = (Ok m, w')).
  { vm_compute. do 2 eexists. reflexivity. }
  destruct H as (m & w' & H). exists m, w'. split; [exact H|].
  apply (train_version nat counting_fit default_training four_candles true
           fresh_world w' m H).
Defined.

(** ** Candlestick patterns *)

Ltac break_binds :=
  repeat match goal with
  | |- context [bind ?m _] => destruct m; cbn [bind]
  | |- context [if ?c then _ else _] => destruct c
  end.

Lemma detect_patterns_form (name_of : nat -> string) (df : DataFrame) :
  let name := name_of (len df - 1)%nat in
  exists dj eng,
    detect_patterns name_of df = dj ++ eng /\
    (dj = [] \/ dj = [mkPattern doji name 0.8]) /\
    (eng = [] \/ eng = [mkPattern bullish_engulfing name 0.9] \/
     eng = [mkPattern bearish_engulfing name 0.9]).
Proof.
  intro name. unfold detect_patterns, try_except. fold name.
  break_binds;
    first
      [ exists [], []; split; [reflexivity|split; auto]
      | exists [mkPattern doji name 0.8], [];
        split; [reflexivity|split; auto]
      | exists [], [mkPattern bullish_engulfing name 0.9];
        split; [reflexivity|split; auto]
      | exists [], [mkPattern bearish_engulfing name 0.9];
        split; [reflexivity|split; auto]
      | exists [mkPattern doji name 0.8],
          [mkPattern bullish_engulfing name 0.9];
        split; [reflexivity|split; auto]
      | exists [mkPattern doji name 0.8],
          [mkPattern bearish_engulfing name 0.9];
        split; [reflexivity|split; auto] ].
Qed.

Lemma row_item_missing (df : DataFrame) (r : Row) (c : string) :
  has_column df c = false -> row_item df r c = Raise KeyError.
Proof.
  unfold row_item, s_item, has_column. simpl. intros ->. reflexivity.
Qed.

(** X23: at most two patterns are reported, a doji first and then at most one
    engulfing pattern, never a bullish and a bearish one together; each
    carries the label of the last candle, with confidence 0.8 for a doji
    and 0.9 for an engulfing pattern.  Fewer than three candles, or a
    series without one of the columns open, high, low, close, give no
    pattern. *)
Theorem detect_patterns_shape (name_of : nat -> string) (df : DataFrame) :
  let ps := detect_patterns name_of df in
  (List.length ps <= 2)%nat /\
  (forall p, In p ps ->
     pattern_timestamp p = name_of (len df - 1)%nat /\
     pattern_confidence p =
       match pattern p with doji => 0.8 | _ => 0.9 end) /\
  ~ (In bullish_engulfing (map pattern ps) /\
     In bearish_engulfing (map pattern ps)) /\
  ((len df < 3)%nat -> ps = []) /\
  ((exists c, In c ["open"; "high"; "low"; "close"]%string /\
              has_column df c = false) -> ps = []).
Proof.
  intro ps. subst ps.
  destruct (detect_patterns_form name_of df) as (dj & eng & E & Hd & He).
  cbv zeta in Hd, He.
  split; [|split; [|split; [|split]]].
  - rewrite E.
    destruct Hd as [->| ->]; destruct He as [->|[->| ->]]; simpl; lia.
  - rewrite E. intros p Hp.
    destruct Hd as [->| ->]; destruct He as [->|[->| ->]]; simpl in Hp;
      repeat (destruct Hp as [<-|Hp]; [split; reflexivity|]);
      destruct Hp.
  - rewrite E.
    destruct Hd as [->| ->]; destruct He as [->|[->| ->]]; simpl;
      intros [H1 H2];
      repeat (destruct H1 as [H1|H1]; try discriminate H1);
      repeat (destruct H2 as [H2|H2]; try discriminate H2);
      try contradiction.
  - intro Hn. unfold detect_patterns.
    destruct (Nat.ltb_spec (len df) 3) as [_|H]; [reflexivity|lia].
  - intros (c & Hc & Hmiss). unfold detect_patterns, try_except.
    destruct (Nat.ltb (len df) 3); [reflexivity|].
    destruct (iloc (rows df) (-1)) as [last|]; cbn [bind]; [|reflexivity].
    destruct (row_item df last "open") as [o|] eqn:Eo; cbn [bind];
      [|reflexivity].
    destruct (row_item df last "close") as [cl|] eqn:Ec; cbn [bind];
      [|reflexivity].
    destruct (row_item df last "high") as [h|] eqn:Eh; cbn [bind];
      [|reflexivity].
    destruct (row_item df last "low") as [l|] eqn:El; cbn [bind];
      [|reflexivity].
    exfalso.
    destruct Hc as [<-|[<-|[<-|[<-|[]]]]];
      rewrite (row_item_missing df last _ Hmiss) in *; discriminate.
Qed.

Lemma detect_patterns_shape_witness :
  detect_patterns (fun _ => "t"%string)
    (ohlc4_frame [(102, 103, 99, 100); (99, 105, 98, 104)]) = [].
Proof.
  apply (proj1 (proj2 (proj2 (proj2
           (detect_patterns_shape (fun _ => "t"%string)
              (ohlc4_frame [(102, 103, 99, 100); (99, 105, 98, 104)])))))).
  vm_compute. lia.
Defined.

(** ** Support and resistance: where levels come from *)

Lemma In_firstn {A} (x : A) (n : nat) (l : list A) :
  In x (firstn n l) -> In x l.
Proof.
  revert n. induction l as [|a t IH]; intros [|n] H; simpl in *; auto.
  - destruct H.
  - destruct H as [H|H]; [left; exact H|right; apply (IH n H)].
Qed.

Lemma In_skipn {A} (x : A) (n : nat) (l : list A) :
  In x (skipn n l) -> In x l.
Proof.
  revert l. induction n as [|n IH]; intros l H; simpl in *; auto.
  destruct l as [|a t]; [destruct H|]. right. apply IH. exact H.
Qed.

Lemma In_slice {A} (x : A) (l : list A) (i j : nat) :
  In x (slice l i j) -> In x l.
Proof. unfold slice. intro H. eapply In_skipn, In_firstn, H. Qed.

Lemma py_max_list_In (l : list Q) (m : Q) :
  py_max_list l = Some m -> In m l.
Proof.
  destruct l as [|x t]; [discriminate|]. intro H. injection H as <-.
  destruct (fold_py_max_spec t x) as ([E|Hin] & _); [left|right]; auto.
Qed.

Lemma py_min_list_In (l : list Q) (m : Q) :
  py_min_list l = Some m -> In m l.
Proof.
  destruct l as [|x t]; [discriminate|]. intro H. injection H as <-.
  destruct (fold_py_min_spec t x) as ([E|Hin] & _); [left|right]; auto.
Qed.

Lemma rolling_In (vals : list Q) (w i : nat) (m : Q) :
  rolling_max vals w i = Some m \/ rolling_min vals w i = Some m ->
  In m vals.
Proof.
  unfold rolling_max, rolling_min, rolling_window.
  destruct (Nat.eqb w 0); [intros [H|H]; discriminate H|].
  destruct (_ || _); [intros [H|H]; discriminate H|].
  intros [H|H]; [apply py_max_list_In in H|apply py_min_list_In in H];
    apply In_slice in H; exact H.
Qed.

Lemma level_at_In (vals : list Q) (rolled : nat -> option Q) (w : nat)
    (t : Z) (i : nat) (found : list Q) :
  (forall m, rolled i = Some m -> In m vals) ->
  level_at vals rolled w t i = Ok found ->
  forall x, In x found -> In x vals.
Proof.
  intros Hr H x Hx. unfold level_at in H.
  destruct (iloc vals (Z.of_nat i)) as [v|]; cbn [bind] in H; [|discriminate].
  destruct (rolled i) as [level|] eqn:E.
  - destruct (Qeq_bool level v).
    + destruct (t <=? _)%Z; injection H as <-.
      * destruct Hx as [<-|[]]. apply Hr. reflexivity.
      * destruct Hx.
    + injection H as <-. destruct Hx.
  - injection H as <-. destruct Hx.
Qed.

Lemma found_levels_In (df : DataFrame) (w : nat) (t : Z) (raw : list Q) :
  found_levels df w t = Ok raw ->
  exists high low,
    col df "high" = Ok high /\ col df "low" = Ok low /\
    forall x, In x raw -> In x high \/ In x low.
Proof.
  unfold found_levels. intro H.
  destruct (col df "high") as [high|]; cbn [bind] in H; [|discriminate].
  destruct (col df "low") as [low|]; cbn [bind] in H; [|discriminate].
  destruct (mapM _ _) as [per|] eqn:Em; cbn [bind] in H; [|discriminate].
  injection H as <-.
  exists high, low. split; [reflexivity|]. split; [reflexivity|].
  intros x Hx. apply in_concat in Hx. destruct Hx as (found & Hf & Hx).
  assert (HF : Forall (fun found => forall x, In x found ->
                                   In x high \/ In x low) per).
  { apply (mapM_Forall _ _ _ _ Em). intros i b _ Hb.
    destruct (level_at high _ w t i) as [fh|] eqn:Eh; cbn [bind] in Hb;
      [|discriminate].
    destruct (level_at low _ w t i) as [fl|] eqn:El; cbn [bind] in Hb;
      [|discriminate].
    injection Hb as <-. intros y Hy. apply in_app_or in Hy.
    destruct Hy as [Hy|Hy].
    - left.
      apply (level_at_In high (rolling_max high w) w t i fh);
        [|exact Eh|exact Hy].
      intros m Hm. apply (rolling_In high w i). left. exact Hm.
    - right.
      apply (level_at_In low (rolling_min low w) w t i fl);
        [|exact El|exact Hy].
      intros m Hm. apply (rolling_In low w i). right. exact Hm. }
  rewrite Forall_forall in HF. apply (HF found Hf x Hx).
Qed.

Lemma py_set_subset (l : list Q) (x : Q) : In x (py_set l) -> In x l.
Proof.
  induction l as [|a t IH]; simpl; [tauto|].
  intros [H|H]; [left; exact H|].
  apply filter_In in H. right. apply IH. tauto.
Qed.

Lemma found_levels_short (df : DataFrame) (w : nat) (t : Z) :
  (len df <= 2 * w)%nat \/ w = 0%nat ->
  forall raw, found_levels df w t = Ok raw -> raw = [].
Proof.
  intros Hn raw. unfold found_levels.
  destruct (col df "high") as [high|]; cbn [bind]; [|discriminate].
  destruct (col df "low") as [low|]; cbn [bind]; [|discriminate].
  destruct Hn as [Hn| ->].
  - replace (len df - w - w)%nat with 0%nat by lia. simpl.
    intro H. injection H as <-. reflexivity.
  - destruct (mapM _ _) as [per|] eqn:Em; cbn [bind]; [|discriminate].
    intro H. injection H as <-.
    assert (HF : Forall (fun found : list Q => found = []) per).
    { apply (mapM_Forall _ _ _ _ Em). intros i b _ Hb.
      unfold level_at, rolling_max, rolling_min, rolling_window in Hb.
      simpl in Hb.
      destruct (iloc high (Z.of_nat i)); cbn [bind] in Hb; [|discriminate].
      destruct (iloc low (Z.of_nat i)); cbn [bind] in Hb; [|discriminate].
      injection Hb as <-. reflexivity. }
    clear Em. induction HF as [|a per Ha _ IH]; [reflexivity|].
    simpl. rewrite Ha, IH. reflexivity.
Qed.

(** X24: every support or resistance level returned is the high or the low of a
    candle of the series. *)
Theorem levels_are_highs_or_lows
    (df : DataFrame) (window : nat) (num_touches : Z) (x : Q) :
  let r := detect_support_resistance df window num_touches in
  In x (support r) \/ In x (resistance r) ->
  exists high low,
    col df "high" = Ok high /\ col df "low" = Ok low /\
    (In x high \/ In x low).
Proof.
  unfold detect_support_resistance, try_except.
  destruct (found_levels df window num_touches) as [raw|] eqn:Ef;
    cbn [bind]; [|intros [[]|[]]].
  destruct (latest_close df) as [price|]; cbn [bind]; [|intros [[]|[]]].
  destruct (found_levels_In df window num_touches raw Ef)
    as (high & low & Hh & Hl & Hin).
  cbn [support resistance]. intro H.
  exists high, low. split; [exact Hh|]. split; [exact Hl|].
  apply Hin. apply py_set_subset.
  apply (proj1 (py_sorted_In x (py_set raw))).
  destruct H as [H|H]; apply filter_In in H; tauto.
Qed.

Lemma levels_are_highs_or_lows_witness :
  exists high low,
    col ranging_candles "high" = Ok high /\
    col ranging_candles "low" = Ok low /\
    (In 90 high \/ In 90 low).
Proof.
  apply (levels_are_highs_or_lows ranging_candles 1 2 90).
  left. left. reflexivity.
Defined.

(** A series of at most twice the window in length (40 candles with the
    default window of 20), and any series when the window is 0, has no
    position to test: both lists are empty. *)
Lemma no_levels_on_short_series_aux
    (df : DataFrame) (window : nat) (num_touches : Z)
    (Hshort : (len df <= 2 * window)%nat \/ window = 0%nat) :
  detect_support_resistance df window num_touches = mkSupportResistance [] [].
Proof.
  unfold detect_support_resistance, try_except.
  destruct (found_levels df window num_touches) as [raw|] eqn:Ef;
    cbn [bind]; [|reflexivity].
  rewrite (found_levels_short df window num_touches Hshort raw Ef).
  destruct (latest_close df); reflexivity.
Qed.


(** ** Initialising the network *)

(** X26: [initialize_model] takes the network from the model file of the current
    version when that file is readable; when the file is absent or damaged
    it builds a new network, and it raises only if building or compiling
    the new one does.  The version counter, the scaler and the files are
    never changed. *)
Theorem initialize_model_outcomes {Model} (sequential : Result Model)
    (compile : Model -> Result unit) (w : World Model) :
  let v := model_version (self w) in
  (forall m, model_file (fs w) v = Some (Readable m) ->
     initialize_model sequential compile w =
     (Ok tt, mkWorld (set_model Model (self w) m) (fs w))) /\
  (model_file (fs w) v = None \/ model_file (fs w) v = Some Damaged ->
     initialize_model sequential compile w =
     _create_new_model sequential compile w) /\
  (forall r w', initialize_model sequential compile w = (r, w') ->
     model_version (self w') = v /\
     scaler (self w') = scaler (self w) /\
     fs w' = fs w /\
     ((exists e, r = Raise e) ->
      (exists e, sequential = Raise e) \/
      (exists m e, sequential = Ok m /\ compile m = Raise e))).
Proof.
  intro v. subst v.
  destruct sequential as [m|e0];
    unfold initialize_model, m_try_except, _create_new_model, mbind, lift,
      get_self, get_fs, put_self; cbn [self fs].
  - split; [|split].
    + intros m0 Hm. rewrite Hm. reflexivity.
    + intros [H|H]; rewrite H; cbn [read_file];
        destruct (compile m) as [[]|]; reflexivity.
    + intros r w'.
      destruct (model_file (fs w) (model_version (self w))) as [[m0|]|];
        cbn [read_file].
      * intro H. injection H as <- <-. repeat split.
        intros [e He]. discriminate He.
      * destruct (compile m) as [[]|e] eqn:Ec; intro H; injection H as <- <-;
          repeat split; intros [e' He]; try discriminate He.
        right. exists m, e. split; [reflexivity|exact Ec].
      * destruct (compile m) as [[]|e] eqn:Ec; intro H; injection H as <- <-;
          repeat split; intros [e' He]; try discriminate He.
        right. exists m, e. split; [reflexivity|exact Ec].
  - split; [|split].
    + intros m0 Hm. rewrite Hm. reflexivity.
    + intros [H|H]; rewrite H; reflexivity.
    + intros r w'.
      destruct (model_file (fs w) (model_version (self w))) as [[m0|]|];
        cbn [read_file]; intro H; injection H as <- <-; repeat split;
        intros [e He]; try discriminate He; left; exists e0; reflexivity.
Qed.

Lemma initialize_model_outcomes_witness :
  initialize_model (Ok 2%nat) (fun _ => Ok tt) world_with_bare_v0 =
  _create_new_model (Ok 2%nat) (fun _ => Ok tt) world_with_bare_v0.
Proof.
  apply (proj1 (proj2 (initialize_model_outcomes (Ok 2%nat) (fun _ => Ok tt)
                         world_with_bare_v0))).
  left. reflexivity.
Defined.

(** ** Detector and generator together *)



(** * The properties, by number *)


(** X2: the momentum score lies between 0 and 0.8: 0.3 for the RSI, 0.3 for
    the MACD and 0.2 for the stochastic oscillator. *)
Theorem momentum_score_range (df : DataFrame) :
  0 <= _evaluate_momentum df <= 0.8.
Proof.
  apply momentum_score_range_aux; assumption.
Qed.

(** X3: the support/resistance score lies between 0 and 0.5. *)
Theorem support_resistance_score_range (p : Q) (sr : SupportResistance) :
  0 <= _evaluate_support_resistance p sr <= 0.5.
Proof.
  apply support_resistance_score_range_aux; assumption.
Qed.

(** X4: the AI score never exceeds 1, is 0 when a key of the prediction is
    missing, and is not negative when the confidence is not. *)
Theorem ai_score_range (ai : AIPrediction) :
  _evaluate_ai_signal ai <= 1 /\
  (confidence ai = None \/ probabilities ai = None ->
   _evaluate_ai_signal ai = 0) /\
  (forall c, confidence ai = Some c -> 0 <= c -> 0 <= _evaluate_ai_signal ai).
Proof.
  apply ai_score_range_aux; assumption.
Qed.

Lemma ai_score_range_witness : 0 <= _evaluate_ai_signal hold_prediction.
Proof.
  apply (proj2 (proj2 (ai_score_range hold_prediction)) 0.9).
  - reflexivity.
  - lra.
Defined.







(** X10: the nearest support is the greatest level strictly below the price,
    and [None] exactly when no level is below the price; the nearest
    resistance is the least level strictly above it, likewise. *)
Theorem nearest_level_spec (levels : list Q) (p : Q) :
  (forall s, nearest_below levels p = Some s ->
     In s levels /\ s < p /\ (forall x, In x levels -> x < p -> x <= s)) /\
  (nearest_below levels p = None <-> (forall x, In x levels -> ~ x < p)) /\
  (forall r, nearest_above levels p = Some r ->
     In r levels /\ p < r /\ (forall x, In x levels -> p < x -> r <= x)) /\
  (nearest_above levels p = None <-> (forall x, In x levels -> ~ p < x)).
Proof.
  apply nearest_level_spec_aux; assumption.
Qed.

Lemma nearest_level_spec_witness :
  In 98 [90; 98; 105; 110] /\ 98 < 100 /\
  (forall x, In x [90; 98; 105; 110] -> x < 100 -> x <= 98).
Proof.
  apply (proj1 (nearest_level_spec [90; 98; 105; 110] 100) 98).
  reflexivity.
Defined.

(** X25: a series of at most twice the window in length (40 candles with the
    default window of 20), and any series when the window is 0, has no
    position to test: both lists are empty. *)
Theorem no_levels_on_short_series
    (df : DataFrame) (window : nat) (num_touches : Z)
    (Hshort : (len df <= 2 * window)%nat \/ window = 0%nat) :
  detect_support_resistance df window num_touches = mkSupportResistance [] [].
Proof.
  apply no_levels_on_short_series_aux; assumption.
Qed.

Lemma no_levels_on_short_series_witness :
  detect_support_resistance ranging_candles 20 2 = mkSupportResistance [] [].
Proof.
  apply no_levels_on_short_series. left. vm_compute. lia.
Defined.

Lemma online_update_never_raises_witness :
  exists w',
    online_update counting_fit default_training (close_frame [1]) fresh_world
      = (Ok (None, None), w') /\
    model (self w') = model (self fresh_world).
Proof.
  destruct (online_update_never_raises nat counting_fit default_training
              (close_frame [1]) fresh_world)
    as (r & w' & H & _ & _ & Hshort).
  destruct Hshort as [Hr Hm]; [vm_compute; lia|].
  exists w'. rewrite <- Hr. split; assumption.
Defined.
